(** * File ingestion and note segmentation: the [FileProcessor] class

    A shallow embedding of [utils/fileProcessor.ts] (type classifier,
    extractor dispatch, segmentation cascade, note synthesizer) and of
    [estimateAudioDuration] from [services/speechToTextService.ts].

    JavaScript strings are sequences of UTF-16 code units; they are
    modelled as [list N].  The handful of [String.prototype] and [RegExp]
    operations the class relies on are defined first, following
    ECMAScript; the class itself comes next, one definition per method. *)

From Stdlib Require Import List NArith ZArith Bool Lia String Ascii.
From Stdlib Require Import DecimalString DecimalNat DecimalZ.
From Stdlib Require QArith Qminmax.
Import ListNotations.

Set Implicit Arguments.

(** ** JavaScript strings *)

Module JS.

Definition jsstring := list N.

(** An ASCII literal as a JavaScript string. *)
Definition js (s : string) : jsstring :=
  map N_of_ascii (list_ascii_of_string s).

Definition str_eqb (a b : jsstring) : bool :=
  if list_eq_dec N.eq_dec a b then true else false.

(** [s.length] *)
Definition len (s : jsstring) : Z := Z.of_nat (List.length s).

(** *** Character classes (ECMAScript 22.2.2.9 and 12.2, 12.3) *)

Definition isLineTerminator (c : N) : bool :=
  ((c =? 10) || (c =? 13) || (c =? 0x2028) || (c =? 0x2029))%N.

(** [\s], which is also what [trim] strips: WhiteSpace and LineTerminator. *)
Definition isSpace (c : N) : bool :=
  (((9 <=? c) && (c <=? 13)) || (c =? 32) || (c =? 0xA0) || (c =? 0x1680)
   || ((0x2000 <=? c) && (c <=? 0x200A))
   || (c =? 0x2028) || (c =? 0x2029) || (c =? 0x202F) || (c =? 0x205F)
   || (c =? 0x3000) || (c =? 0xFEFF))%N.

(** [\d] *)
Definition isDigit (c : N) : bool := ((48 <=? c) && (c <=? 57))%N.

(** [.] without the [s] flag *)
Definition isDot (c : N) : bool := negb (isLineTerminator c).

(** A bracket class listing ASCII characters, such as [[/.]]. *)
Definition oneOf (s : string) (c : N) : bool :=
  existsb (N.eqb c) (js s).

(** *** [substring], [trim], [includes], [lastIndexOf], [split] *)

Definition clamp (i : Z) (s : jsstring) : nat :=
  Z.to_nat (Z.min (Z.max i 0) (len s)).

(** [s.substring(a, b)]: both ends clamped to [0, s.length], swapped when
    [a > b]. *)
Definition substring (s : jsstring) (a b : Z) : jsstring :=
  let a' := clamp a s in
  let b' := clamp b s in
  let from := Nat.min a' b' in
  let to := Nat.max a' b' in
  firstn (to - from) (skipn from s).

(** [s.substring(a)] *)
Definition substringFrom (s : jsstring) (a : Z) : jsstring :=
  substring s a (len s).

(** [s.substr(start, length)] for a non-negative [start]. *)
Definition substr (s : jsstring) (start : nat) (n : nat) : jsstring :=
  firstn n (skipn start s).

Fixpoint dropWhile (p : N -> bool) (s : jsstring) : jsstring :=
  match s with
  | [] => []
  | c :: s' => if p c then dropWhile p s' else s
  end.

Definition trimStart (s : jsstring) : jsstring := dropWhile isSpace s.
Definition trimEnd (s : jsstring) : jsstring := rev (dropWhile isSpace (rev s)).
Definition trim (s : jsstring) : jsstring := trimEnd (trimStart s).

Fixpoint isPrefix (p s : jsstring) : bool :=
  match p, s with
  | [], _ => true
  | a :: p', b :: s' => (a =? b)%N && isPrefix p' s'
  | _ :: _, [] => false
  end.

(** [s.includes(pat)] *)
Fixpoint includes (s pat : jsstring) : bool :=
  isPrefix pat s ||
  match s with
  | [] => false
  | _ :: s' => includes s' pat
  end.

(** [s.lastIndexOf(pat)], the scan started at offset [i]; [-1] when [pat]
    does not occur. *)
Fixpoint lastIndexFrom (pat s : jsstring) (i : Z) : Z :=
  match s with
  | [] => if isPrefix pat [] then i else (-1)%Z
  | _ :: s' =>
      let r := lastIndexFrom pat s' (i + 1) in
      if (0 <=? r)%Z then r else if isPrefix pat s then i else (-1)%Z
  end.

Definition lastIndexOf (s pat : jsstring) : Z := lastIndexFrom pat s 0.

(** [s.split(sep)] for a separator of one code unit; the result always
    has a first element. *)
Fixpoint split_char (sep : N) (s : jsstring) : list jsstring :=
  match s with
  | [] => [[]]
  | c :: s' =>
      if (c =? sep)%N then [] :: split_char sep s'
      else match split_char sep s' with
           | [] => [[c]]
           | x :: xs => (c :: x) :: xs
           end
  end.

(** The first line, [s.split('\n')[0]]. *)
Definition firstLine (s : jsstring) : jsstring := hd [] (split_char 10 s).

(** *** Number to string *)

(** [String(n)] for a non-negative integer index. *)
Definition ofNat (n : nat) : jsstring :=
  js (NilEmpty.string_of_uint (Nat.to_uint n)).

(** [String(z)] for an integer (of magnitude below 1e21). *)
Definition ofZ (z : Z) : jsstring :=
  js (NilEmpty.string_of_int (Z.to_int z)).

(** *** [toLowerCase]

    The Unicode default lower-case mapping, code unit by code unit, for
    Basic Latin, Latin-1 Supplement and Latin Extended-A (U+0000 to
    U+017F), where it is context free.  U+0130 (capital I with dot above)
    is the one character of that range whose lower case is two code units
    (SpecialCasing.txt: 0069 0307).  Code units above U+017F are left as
    they are. *)
Definition lowerUnit (c : N) : list N :=
  (if (65 <=? c) && (c <=? 90) then [c + 32]
   else if (0xC0 <=? c) && (c <=? 0xDE) && negb (c =? 0xD7) then [c + 32]
   else if (c =? 0x130) then [0x69; 0x307]
   else if (c =? 0x178) then [0xFF]
   else if ((0x100 <=? c) && (c <=? 0x137)) || ((0x14A <=? c) && (c <=? 0x177))
        then (if N.even c then [c + 1] else [c])
   else if ((0x139 <=? c) && (c <=? 0x148)) || ((0x179 <=? c) && (c <=? 0x17E))
        then (if N.odd c then [c + 1] else [c])
   else [c])%N.

Definition toLowerCase (s : jsstring) : jsstring := flat_map lowerUnit s.

(** *** Regular expressions

    The patterns of the class are sequences of assertions and of greedy
    quantifiers over a character class; nothing else is needed (no
    alternation, no nested quantifier, and the capture groups are never
    read).  The matcher backtracks as ECMAScript's does: a quantifier takes
    as many characters as it can and gives them back one at a time while
    the rest of the pattern fails. *)

Inductive atom : Type :=
| Bol                                   (* ^ under the m flag *)
| Bos                                   (* ^ without the m flag *)
| Eol                                   (* $ under the m flag *)
| Eos                                   (* $ without the m flag *)
| Cls (cls : N -> bool)                 (* one character of a class *)
| Rep (lo : nat) (hi : option nat) (cls : N -> bool).  (* cls{lo,hi} *)

Definition regex := list atom.

(** A literal run of ASCII characters. *)
Definition lit (s : string) : regex := map (fun c => Cls (N.eqb c)) (js s).
Definition plus (cls : N -> bool) : atom := Rep 1 None cls.
Definition star (cls : N -> bool) : atom := Rep 0 None cls.

(** [rep k cls lo hi prev s]: match [cls{lo,hi}] greedily at the head of [s]
    and then the continuation [k]; [prev] is the code unit before [s]. *)
Fixpoint rep (k : option N -> jsstring -> option nat) (cls : N -> bool)
    (lo : nat) (hi : option nat) (prev : option N) (s : jsstring)
    {struct s} : option nat :=
  let stop := match lo with O => k prev s | S _ => None end in
  match s with
  | [] => stop
  | c :: s' =>
      if cls c && match hi with Some O => false | _ => true end then
        match rep k cls (Nat.pred lo) (option_map Nat.pred hi) (Some c) s' with
        | Some n => Some (S n)
        | None => stop
        end
      else stop
  end.

Definition atLineStart (prev : option N) : bool :=
  match prev with None => true | Some c => isLineTerminator c end.

Definition atLineEnd (s : jsstring) : bool :=
  match s with [] => true | c :: _ => isLineTerminator c end.

(** [matchHere re prev s]: the length of the match of [re] anchored at the
    head of [s], if there is one. *)
Fixpoint matchHere (re : regex) (prev : option N) (s : jsstring)
    {struct re} : option nat :=
  match re with
  | [] => Some 0
  | a :: re' =>
      match a with
      | Bol => if atLineStart prev then matchHere re' prev s else None
      | Bos => match prev with None => matchHere re' prev s | Some _ => None end
      | Eol => if atLineEnd s then matchHere re' prev s else None
      | Eos => match s with [] => matchHere re' prev s | _ :: _ => None end
      | Cls cls =>
          match s with
          | c :: s' =>
              if cls c then option_map S (matchHere re' (Some c) s') else None
          | [] => None
          end
      | Rep lo hi cls => rep (matchHere re') cls lo hi prev s
      end
  end.

(** The code unit before offset [n] of [s], [prev] being the one before
    [s]. *)
Definition prevAt (prev : option N) (s : jsstring) (n : nat) : option N :=
  match n with
  | O => prev
  | S m => match nth_error s m with Some c => Some c | None => prev end
  end.

(** [RegExp.prototype.exec] from the head of [s]: offset and length of the
    leftmost match. *)
Fixpoint search (re : regex) (prev : option N) (s : jsstring)
    : option (nat * nat) :=
  match matchHere re prev s with
  | Some n => Some (0, n)
  | None =>
      match s with
      | [] => None
      | c :: s' =>
          match search re (Some c) s' with
          | Some (i, n) => Some (S i, n)
          | None => None
          end
      end
  end.

(** [s.match(re)] under the [g] flag: every match, left to right; an empty
    match moves [lastIndex] one further.  [null] is the empty list. *)
Fixpoint matchAllFrom (fuel : nat) (re : regex) (prev : option N)
    (s : jsstring) : list jsstring :=
  match fuel with
  | O => []
  | S fuel' =>
      match search re prev s with
      | None => []
      | Some (i, n) =>
          let m := firstn n (skipn i s) in
          let next := match n with O => S i | _ => i + n end in
          if List.length s <? next then [m]
          else m :: matchAllFrom fuel' re (prevAt prev s next) (skipn next s)
      end
  end.

Definition matchAll (re : regex) (s : jsstring) : list jsstring :=
  matchAllFrom (S (List.length s)) re None s.

(** [s.split(re)] (ECMAScript 22.2.6.14) for a pattern without capture
    groups: [cur] is the piece being read, reversed, and [fresh] says that
    no character was read since the last separator. *)
Fixpoint splitLoop (fuel : nat) (re : regex) (prev : option N)
    (rest cur : jsstring) (fresh : bool) : list jsstring :=
  match fuel with
  | O => [rev cur]
  | S fuel' =>
      match rest with
      | [] => [rev cur]
      | c :: rest' =>
          match matchHere re prev rest with
          | Some n =>
              if (n =? 0) && fresh
              then splitLoop fuel' re (Some c) rest' (c :: cur) false
              else rev cur ::
                   splitLoop fuel' re (prevAt prev rest n) (skipn n rest) [] true
          | None => splitLoop fuel' re (Some c) rest' (c :: cur) false
          end
      end
  end.

Definition split (re : regex) (s : jsstring) : list jsstring :=
  match s with
  | [] => match matchHere re None [] with Some _ => [] | None => [[]] end
  | _ :: _ => splitLoop (2 * List.length s + 2) re None s [] true
  end.

(** [s.replace(re, by)] without the [g] flag: the leftmost match only. *)
Definition replaceFirst (re : regex) (s by_ : jsstring) : jsstring :=
  match search re None s with
  | Some (i, n) => firstn i s ++ by_ ++ skipn (i + n) s
  | None => s
  end.

(** [s.replace(re, by)] under the [g] flag. *)
Fixpoint replaceAllFrom (fuel : nat) (re : regex) (prev : option N)
    (s by_ : jsstring) : jsstring :=
  match fuel with
  | O => s
  | S fuel' =>
      match search re prev s with
      | None => s
      | Some (i, n) =>
          let next := match n with O => S i | _ => i + n end in
          firstn i s ++ by_ ++
          (if List.length s <? next then []
           else firstn (next - (i + n)) (skipn (i + n) s) ++
                replaceAllFrom fuel' re (prevAt prev s next) (skipn next s) by_)
      end
  end.

Definition replaceAll (re : regex) (s by_ : jsstring) : jsstring :=
  replaceAllFrom (S (List.length s)) re None s by_.

End JS.

(** ** The class [FileProcessor] *)

Module FileProcessor.
Import JS.

(** A thrown exception.  The only one the synchronous methods can raise
    is the [TypeError] of a property read on [undefined]. *)
Inductive exn : Type := TypeError.

Inductive result (A : Type) : Type :=
| Ok (a : A)
| Throw (e : exn).
Arguments Ok {A} a.
Arguments Throw {A} e.

Definition bind {A B : Type} (r : result A) (k : A -> result B) : result B :=
  match r with
  | Ok a => k a
  | Throw e => Throw e
  end.

Local Notation "x <- r ;; k" := (bind r (fun x => k))
  (at level 61, r at next level, right associativity).

(** [a || b] on strings: the empty string is the falsy one. *)
Definition orElse (a b : jsstring) : jsstring :=
  match a with [] => b | _ :: _ => a end.

(** *** Type classifier *)

(** [SUPPORTED_TYPES], in the order [Object.entries] enumerates it. *)
Definition SUPPORTED_TYPES : list (jsstring * list jsstring) :=
  [ (js "text", map js [".txt"; ".md"; ".rtf"]);
    (js "document", map js [".pdf"; ".doc"; ".docx"; ".odt"]);
    (js "spreadsheet", map js [".xls"; ".xlsx"; ".csv"; ".ods"]);
    (js "presentation", map js [".ppt"; ".pptx"; ".odp"]);
    (js "image",
     map js [".jpg"; ".jpeg"; ".png"; ".gif"; ".bmp"; ".webp"; ".svg"]);
    (js "audio", map js [".mp3"; ".wav"; ".ogg"; ".m4a"; ".flac"; ".aac"]);
    (js "video",
     map js [".mp4"; ".avi"; ".mov"; ".wmv"; ".flv"; ".webm"; ".mkv"]);
    (js "code",
     map js [".js"; ".ts"; ".jsx"; ".tsx"; ".py"; ".java"; ".cpp"; ".c";
             ".html"; ".css"; ".json"; ".xml"; ".yaml"; ".yml"]);
    (js "archive", map js [".zip"; ".rar"; ".7z"; ".tar"; ".gz"]) ]%string.

Definition getFileExtension (filename : jsstring) : jsstring :=
  substringFrom (toLowerCase filename) (lastIndexOf filename (js ".")).

(** The [for ... of Object.entries] loop of [getFileType] over a table. *)
Fixpoint lookupType (table : list (jsstring * list jsstring))
    (extension : jsstring) : jsstring :=
  match table with
  | [] => js "unknown"
  | (type, extensions) :: rest =>
      if existsb (str_eqb extension) extensions then type
      else lookupType rest extension
  end.

Definition getFileType (extension : jsstring) : jsstring :=
  lookupType SUPPORTED_TYPES extension.

(** *** Segmentation *)

Module Seg.
Record t : Type := mk { title : jsstring; content : jsstring }.
End Seg.

(** [/^#{1,6}\s+(.+)$/gm] *)
Definition headerRe : regex :=
  [Bol; Rep 1 (Some 6) (oneOf "#"); plus isSpace; plus isDot; Eol].
(** [/^#{1,6}\s+/gm] *)
Definition headerMarkRe : regex :=
  [Bol; Rep 1 (Some 6) (oneOf "#"); plus isSpace].
(** [/^#{1,6}\s+/] *)
Definition headerStripRe : regex :=
  [Bos; Rep 1 (Some 6) (oneOf "#"); plus isSpace].
(** [/^\d+\.\s+/gm] *)
Definition numberedRe : regex :=
  [Bol; plus isDigit; Cls (oneOf "."); plus isSpace].
(** [/\n\s*\n/] *)
Definition paragraphRe : regex :=
  [Cls (N.eqb 10); star isSpace; Cls (N.eqb 10)].
(** [/^[-*\u2022]\s+/gm] *)
Definition isBullet (c : N) : bool := ((c =? 45) || (c =? 42) || (c =? 0x2022))%N.
Definition bulletRe : regex := [Bol; Cls isBullet; plus isSpace].
(** [/Row \d+: (.+)/g] and [/Row \d+: /] *)
Definition rowPrefixRe : regex := lit "Row " ++ [plus isDigit] ++ lit ": ".
Definition rowRe : regex := rowPrefixRe ++ [plus isDot].
(** [/\.[^/.]+$/] *)
Definition extensionRe : regex :=
  [Cls (oneOf "."); plus (fun c => negb (oneOf "/." c)); Eos].

(** [firstLine.length > 50 ? firstLine.substring(0, 50) + '...' : firstLine] *)
Definition truncTitle (line : jsstring) : jsstring :=
  if (50 <? len line)%Z then substring line 0 50 ++ js "..." else line.

(** The loop of method 1, at index [i] with [sections[i..]] still to visit.
    [headerMatches[i - 1]] is [undefined] past the end of the matches, and
    calling [replace] on it throws. *)
Fixpoint headerNotes (headerMatches : list jsstring)
    (sections : list jsstring) (i : nat) : result (list Seg.t) :=
  match sections with
  | [] => Ok []
  | section :: rest =>
      match nth_error headerMatches (i - 1) with
      | None => Throw TypeError
      | Some headerMatch =>
          let title := trim (replaceFirst headerStripRe headerMatch []) in
          let sectionContent := trim section in
          notes <- headerNotes headerMatches rest (S i) ;;
          Ok (if (10 <? len sectionContent)%Z
              then Seg.mk title sectionContent :: notes
              else notes)
      end
  end.

(** The loop shared by methods 2 and 4; [label] is ["Section "] or
    ["Item "]. *)
Fixpoint sectionNotes (label : jsstring) (sections : list jsstring)
    (i : nat) : list Seg.t :=
  match sections with
  | [] => []
  | section :: rest =>
      let sectionContent := trim section in
      let title := truncTitle (firstLine sectionContent) in
      let notes := sectionNotes label rest (S i) in
      if (20 <? len sectionContent)%Z
      then Seg.mk (orElse title (label ++ ofNat i)) sectionContent :: notes
      else notes
  end.

(** The [forEach] of method 3. *)
Fixpoint paragraphNotes (fileName : jsstring) (paragraphs : list jsstring)
    (index : nat) : list Seg.t :=
  match paragraphs with
  | [] => []
  | paragraph :: rest =>
      let title := truncTitle (firstLine (trim paragraph)) in
      Seg.mk (orElse title
                (js "Note " ++ ofNat (index + 1) ++ js " from " ++ fileName))
             (trim paragraph)
      :: paragraphNotes fileName rest (S index)
  end.

(** The chunking loop: [content.substring(i, i + chunkSize)] for
    [i = 0, chunkSize, ...] while [i < content.length]. *)
Fixpoint chunksFrom (fuel chunkSize : nat) (s : jsstring) : list jsstring :=
  match fuel with
  | O => []
  | S fuel' =>
      match s with
      | [] => []
      | _ :: _ => firstn chunkSize s :: chunksFrom fuel' chunkSize (skipn chunkSize s)
      end
  end.

Definition chunksOf (chunkSize : nat) (s : jsstring) : list jsstring :=
  chunksFrom (List.length s) chunkSize s.

Fixpoint chunkNotes (fileName : jsstring) (chunks : list jsstring)
    (index : nat) : list Seg.t :=
  match chunks with
  | [] => []
  | chunk :: rest =>
      let title := truncTitle (firstLine (trim chunk)) in
      Seg.mk (orElse title
                (js "Part " ++ ofNat (index + 1) ++ js " from " ++ fileName))
             (trim chunk)
      :: chunkNotes fileName rest (S index)
  end.

(** [fileName.replace(/\.[^/.]+$/, '')] *)
Definition baseName (fileName : jsstring) : jsstring :=
  replaceFirst extensionRe fileName [].

Section Segmentation.

(** The body of the [try] block of method 5 is [JSON.parse] followed by
    [Object.values] and [Object.entries] on its result, all of them the
    platform's.  [jsonRow payload] is [None] when a step of the block
    throws; otherwise it is the pair of [String(Object.values(row)[0])],
    when that first value is truthy, and of the [key: value] lines joined
    by newlines. *)
Variable jsonRow : jsstring -> option (option jsstring * jsstring).

Fixpoint rowNotes (rowMatches : list jsstring) (index : nat) : list Seg.t :=
  match rowMatches with
  | [] => []
  | row :: rest =>
      let rowContent := replaceFirst rowPrefixRe row [] in
      let fallback := js "Row " ++ ofNat (index + 1) in
      (match jsonRow rowContent with
       | Some (first, lines) =>
           let title := match first with Some v => v | None => fallback end in
           Seg.mk (substring title 0 50) lines
       | None => Seg.mk fallback rowContent
       end) :: rowNotes rest (S index)
  end.

Definition extractNotesFromContent (content fileName : jsstring)
    : result (list Seg.t) :=
  (* Method 1: markdown headers *)
  let headerMatches := matchAll headerRe content in
  if 1 <? List.length headerMatches then
    let sections := split headerMarkRe content in
    headerNotes headerMatches (tl sections) 1
  else
  (* Method 2: numbered sections *)
  let numberedSections := split numberedRe content in
  if 2 <? List.length numberedSections then
    Ok (sectionNotes (js "Section ") (tl numberedSections) 1)
  else
  (* Method 3: paragraphs *)
  let paragraphs :=
    filter (fun p => (50 <? len (trim p))%Z) (split paragraphRe content) in
  if 1 <? List.length paragraphs then
    Ok (paragraphNotes fileName paragraphs 0)
  else
  (* Method 4: bullet points *)
  let bulletSections := split bulletRe content in
  if 2 <? List.length bulletSections then
    Ok (sectionNotes (js "Item ") (tl bulletSections) 1)
  else
  (* Method 5: rows of a CSV or Excel preview *)
  let rowMatches := matchAll rowRe content in
  if (includes content (js "Row 1:") || includes content (js "Columns:"))
     && (1 <? List.length rowMatches) then
    Ok (rowNotes rowMatches 0)
  else
  (* Fallback: chunks of long content *)
  if (1000 <? len content)%Z then
    Ok (chunkNotes fileName (chunksOf 800 content) 0)
  else
  (* A single note *)
    Ok [Seg.mk (orElse (baseName fileName) (js "Extracted Content")) content].

End Segmentation.

(** *** The data model *)

Module File.
Record t : Type := mk {
  name : jsstring;
  size : Z;              (* bytes *)
  type : jsstring;       (* declared MIME type *)
  lastModified : Z }.
End File.

Module Metadata.
Record t : Type := mk {
  originalName : jsstring;
  size : Z;
  lastModified : Z;
  type : jsstring;
  thumbnail : option jsstring;
  duration : option Z }.
End Metadata.

Module ProcessedFile.
Record t : Type := mk {
  name : jsstring;
  type : jsstring;
  size : Z;
  content : jsstring;
  extractedText : option jsstring;
  metadata : option Metadata.t }.

(** [{ ...processedFile, content: c }] *)
Definition withContent (pf : t) (c : jsstring) : t :=
  mk (name pf) (type pf) (size pf) c (extractedText pf) (metadata pf).
End ProcessedFile.

(** The value of a note's [type] field: one of the strings of [typeMap],
    or a property that [typeMap] inherits from [Object.prototype] (a
    function, or the prototype itself under [__proto__]). *)
Inductive noteTypeValue : Type :=
| TypeName (name : jsstring)
| Inherited (key : jsstring).

Module Note.
Record t : Type := mk {
  id : jsstring;
  title : jsstring;
  content : jsstring;
  type : noteTypeValue;
  tags : list jsstring;
  category : jsstring;
  createdAt : Z;
  updatedAt : Z;
  summary : jsstring;
  transcription : option jsstring;
  isStarred : bool;
  fileUrl : option jsstring;
  duration : option Z;
  sourceFile : jsstring;
  extractedFrom : jsstring }.
End Note.

(** *** Note synthesizer *)

(** The property names of [Object.prototype], which every object literal
    answers to. *)
Definition objectPrototypeKeys : list jsstring :=
  map js ["constructor"; "__defineGetter__"; "__defineSetter__";
          "hasOwnProperty"; "__lookupGetter__"; "__lookupSetter__";
          "isPrototypeOf"; "propertyIsEnumerable"; "toString"; "valueOf";
          "__proto__"; "toLocaleString"]%string.

(** [typeMap[fileType] || 'document']: the lookup finds the keys the
    object literal declares, then those of its prototype, whose values are
    truthy; only a key that neither has gives ['document']. *)
Definition mapFileTypeToNoteType (fileType : jsstring) : noteTypeValue :=
  let typeMap :=
    [ (js "text", js "text"); (js "document", js "document");
      (js "spreadsheet", js "document"); (js "presentation", js "document");
      (js "code", js "text"); (js "image", js "image");
      (js "audio", js "audio"); (js "video", js "video") ] in
  match find (fun kv => str_eqb fileType (fst kv)) typeMap with
  | Some kv => TypeName (snd kv)
  | None =>
      if existsb (str_eqb fileType) objectPrototypeKeys then Inherited fileType
      else TypeName (js "document")
  end.

(** [content.includes(w)] for a literal [w]. *)
Definition mentions (content : jsstring) (w : string) : bool :=
  includes content (js w).

Definition generateSmartTags (processedFile : ProcessedFile.t) : list jsstring :=
  let content := toLowerCase (ProcessedFile.content processedFile) in
  let size := ProcessedFile.size processedFile in
  let tag (b : bool) (t : jsstring) : list jsstring := if b then [t] else [] in
  tag (10 * 1024 * 1024 <? size)%Z (js "large-file") ++
  tag (size <? 1024)%Z (js "small-file") ++
  tag (mentions content "meeting" || mentions content "agenda") (js "meeting") ++
  tag (mentions content "project" || mentions content "task") (js "project") ++
  tag (mentions content "research" || mentions content "study") (js "research") ++
  tag (mentions content "report" || mentions content "analysis") (js "report") ++
  tag (mentions content "presentation" || mentions content "slide")
      (js "presentation").

Definition generateSummary (processedFile : ProcessedFile.t) : jsstring :=
  let content := ProcessedFile.content processedFile in
  if (len content <=? 200)%Z then content
  else
    let summary := trim (substring content 0 150) in
    summary ++ (if (len summary <? len content)%Z then js "..." else []).

(** What [createNotesFromProcessedFile] reads from its surroundings:
    [new Date()], and in the callback of note [k] the value of
    [Date.now()] and the text of [Math.random().toString(36)]. *)
Record World : Type := {
  newDate : Z;
  dateNow : nat -> Z;
  random36 : nat -> jsstring }.

(** [array.map((x, index) => f index x)], from index [i]. *)
Fixpoint mapi {A B : Type} (f : nat -> A -> B) (l : list A) (i : nat) : list B :=
  match l with
  | [] => []
  | x :: l' => f i x :: mapi f l' (S i)
  end.

(** [x || undefined] on an optional string. *)
Definition truthy (x : option jsstring) : option jsstring :=
  match x with Some (_ :: _ as v) => Some v | _ => None end.

Section Synthesizer.

Variable jsonRow : jsstring -> option (option jsstring * jsstring).
Variable world : World.

Definition noteId (index : nat) : jsstring :=
  js "file_" ++ ofZ (dateNow world index) ++ js "_" ++ ofNat index ++ js "_"
  ++ substr (random36 world index) 2 9.

Definition createNotesFromProcessedFile (processedFile : ProcessedFile.t)
    (category : jsstring) : result (list Note.t) :=
  extractedNotes <-
    extractNotesFromContent jsonRow (ProcessedFile.content processedFile)
      (ProcessedFile.name processedFile) ;;
  match extractedNotes with
  | [] => Ok []
  | _ :: _ =>
    let now := newDate world in
    let fileType := ProcessedFile.type processedFile in
    let noteType := mapFileTypeToNoteType fileType in
    let baseFileName := baseName (ProcessedFile.name processedFile) in
    let metadata := ProcessedFile.metadata processedFile in
    Ok (mapi (fun index extractedNote =>
      Note.mk
        (noteId index)
        (Seg.title extractedNote)
        (Seg.content extractedNote)
        noteType
        ([fileType; js "uploaded"; js "extracted";
          replaceAll [plus isSpace] (toLowerCase baseFileName) (js "-")]
         ++ generateSmartTags processedFile)
        category
        now
        now
        (generateSummary
           (ProcessedFile.withContent processedFile (Seg.content extractedNote)))
        (if str_eqb fileType (js "audio") || str_eqb fileType (js "video")
         then ProcessedFile.extractedText processedFile else None)
        false
        (match metadata with
         | Some m => truthy (Metadata.thumbnail m)
         | None => None
         end)
        (match metadata with Some m => Metadata.duration m | None => None end)
        (ProcessedFile.name processedFile)
        (baseFileName ++ js " (" ++
         (if 1 <? List.length extractedNotes
          then ofNat (index + 1) ++ js " of " ++ ofNat (List.length extractedNotes)
          else js "single note") ++ js ")"))
      extractedNotes 0)
  end.

End Synthesizer.

(** *** Extractor dispatch

    The extractors are [async]: each returns a promise, which ends up
    fulfilled, rejected, or is never settled (an event arrives for which no
    handler was installed).  [await] on a promise that is never settled
    never resumes. *)

Inductive jsError : Type :=
| ErrorObj (message : jsstring)   (* an instance of [Error] *)
| OtherValue.                     (* any other thrown value *)

(** [error instanceof Error ? error.message : 'Unknown error'] *)
Definition messageOf (error : jsError) : jsstring :=
  match error with
  | ErrorObj message => message
  | OtherValue => js "Unknown error"
  end.

Inductive promise (A : Type) : Type :=
| Resolved (a : A)
| Rejected (e : jsError)
| Pending.
Arguments Resolved {A} a.
Arguments Rejected {A} e.
Arguments Pending {A}.

(** [const x = await p; k x] *)
Definition await {A B : Type} (p : promise A) (k : A -> promise B) : promise B :=
  match p with
  | Resolved a => k a
  | Rejected e => Rejected e
  | Pending => Pending
  end.

(** [try { await p } catch (error) { h error }] *)
Definition catch {A : Type} (p : promise A) (h : jsError -> promise A) : promise A :=
  match p with
  | Rejected e => h e
  | _ => p
  end.

Local Notation "x <~ p ;; k" := (await p (fun x => k))
  (at level 61, p at next level, right associativity).

(** The event a [FileReader] ends with, and the one an [Image] element
    fires once its [src] is set. *)
Inductive readerEvent : Type :=
| ReaderLoad (result : jsstring)
| ReaderError.

Module Image.
Record t : Type := mk { width : Z; height : Z }.
End Image.

Inductive imageEvent : Type :=
| ImageLoad (img : Image.t)
| ImageError.

Module ImageInfo.
Record t : Type := mk {
  width : Z;
  height : Z;
  colorScheme : jsstring;
  complexity : jsstring;
  brightness : jsstring;
  contrast : jsstring }.
End ImageInfo.

(** The browser and the parsing libraries, as far as the extractors see
    them.  [pdfText], [wordText] and [excelText] are the outcomes of the
    [try] blocks around pdf.js, mammoth and SheetJS.  [canvasStats] is what
    the [img.onload] handler of [analyzeImage] computes from the canvas, or
    [None] when it throws ([getImageData] raises on a canvas without
    pixels, or on one too large to allocate).  The wording of the
    reports (template literals around [toFixed], [toLocaleString],
    [JSON.stringify] and the libraries' results) is taken as given: the
    last fields build them. *)
Record Platform : Type := {
  readAsText : File.t -> readerEvent;
  readAsDataURL : File.t -> readerEvent;
  loadObjectURL : File.t -> imageEvent;
  loadDataURL : jsstring -> imageEvent;
  canvasStats : Image.t -> option (jsstring * jsstring * jsstring * jsstring);
  toDataURL : Image.t -> jsstring;
  pdfText : File.t -> promise jsstring;
  wordText : File.t -> promise jsstring;
  excelText : File.t -> promise jsstring;
  csvReport : File.t -> jsstring -> jsstring;
  extractionErrorReport : string -> File.t -> jsError -> jsstring;
  imageReport : File.t -> ImageInfo.t -> bool -> jsstring;
  audioReport : File.t -> Z -> jsstring;
  videoReport : File.t -> Z -> jsstring;
  codeReport : File.t -> jsstring -> jsstring -> jsstring;
  archiveReport : File.t -> jsstring;
  genericReport : File.t -> jsstring -> jsstring;
  binaryReport : File.t -> jsstring }.

Section Extractors.

Variable P : Platform.

Definition processTextFile (file : File.t) : promise jsstring :=
  match readAsText P file with
  | ReaderLoad result => Resolved result
  | ReaderError => Rejected (ErrorObj (js "Failed to read text file"))
  end.

Definition extractPDFText (file : File.t) : promise jsstring :=
  catch (pdfText P file)
        (fun error => Resolved (extractionErrorReport P "PDF File" file error)).

Definition extractWordText (file : File.t) : promise jsstring :=
  catch (wordText P file)
        (fun error => Resolved (extractionErrorReport P "Word Document" file error)).

Definition processDocumentFile (file : File.t) : promise jsstring :=
  let extension := getFileExtension (File.name file) in
  catch
    (if str_eqb extension (js ".pdf") then extractPDFText file
     else if str_eqb extension (js ".docx") then extractWordText file
     else if str_eqb extension (js ".doc") then
       Resolved (js "Legacy .doc files are not supported. Please convert to .docx format.")
     else
       Resolved (js "Document content extraction not yet implemented for "
                 ++ extension ++ js " files."))
    (fun error =>
       Resolved (js "Error extracting content from " ++ File.name file ++ js ": "
                 ++ messageOf error)).

(** No [reader.onerror] is installed: a failed read leaves the promise
    unsettled. *)
Definition processCSVFile (file : File.t) : promise jsstring :=
  match readAsText P file with
  | ReaderLoad csvText => Resolved (csvReport P file csvText)
  | ReaderError => Pending
  end.

Definition processExcelFile (file : File.t) : promise jsstring :=
  catch (excelText P file)
        (fun error => Resolved (extractionErrorReport P "Excel File" file error)).

Definition processSpreadsheetFile (file : File.t) : promise jsstring :=
  let extension := getFileExtension (File.name file) in
  catch
    (if str_eqb extension (js ".csv") then processCSVFile file
     else if existsb (str_eqb extension) [js ".xls"; js ".xlsx"]
     then processExcelFile file
     else
       Resolved (js "[Spreadsheet File: " ++ File.name file ++ js "]"
                 ++ [10; 10]%N ++ js "Unsupported spreadsheet format: "
                 ++ extension))
    (fun error =>
       Resolved (js "[Spreadsheet File: " ++ File.name file ++ js "]"
                 ++ [10; 10]%N ++ js "Error processing file: "
                 ++ messageOf error)).

(** [img.onerror] resolves with the placeholder record; [img.onload]
    resolves once the canvas has been read, and an exception thrown inside
    that handler is not caught by the promise: it stays unsettled.  (The
    record's [hasText] field is never read and is left out.) *)
Definition analyzeImage (file : File.t) : promise ImageInfo.t :=
  match loadObjectURL P file with
  | ImageLoad img =>
      match canvasStats P img with
      | Some (colorScheme, complexity, brightness, contrast) =>
          Resolved (ImageInfo.mk (Image.width img) (Image.height img)
                      colorScheme complexity brightness contrast)
      | None => Pending
      end
  | ImageError =>
      Resolved (ImageInfo.mk 0 0 (js "Unknown") (js "Unknown") (js "Unknown")
                  (js "Unknown"))
  end.

Definition detectTextInImage (file : File.t) : promise bool :=
  match loadObjectURL P file with
  | ImageLoad img =>
      Resolved ((800 <? Image.width img)%Z && (600 <? Image.height img)%Z)
  | ImageError => Resolved false
  end.

Definition processImageFile (file : File.t) : promise jsstring :=
  catch
    (imageInfo <~ analyzeImage file ;;
     hasText <~ detectTextInImage file ;;
     Resolved (imageReport P file imageInfo hasText))
    (fun error =>
       Resolved (extractionErrorReport P "Image Analysis Error" file error)).

(** Only [reader.onload] and [img.onload] are installed. *)
Definition generateImageThumbnail (file : File.t) : promise jsstring :=
  match readAsDataURL P file with
  | ReaderLoad url =>
      match loadDataURL P url with
      | ImageLoad img => Resolved (toDataURL P img)
      | ImageError => Pending
      end
  | ReaderError => Pending
  end.

(** [Math.floor(file.size / 16000)]; the quotient of two integers below
    2^53 is floored exactly. *)
Definition processAudioFile (file : File.t) : promise (jsstring * Z) :=
  let estimatedDuration := (File.size file / 16000)%Z in
  Resolved (audioReport P file estimatedDuration, estimatedDuration).

Definition videoThumbnail : jsstring :=
  js "data:image/svg+xml;base64,PHN2ZyB3aWR0aD0iMTUwIiBoZWlnaHQ9IjE1MCIgdmlld0JveD0iMCAwIDE1MCAxNTAiIGZpbGw9Im5vbmUiIHhtbG5zPSJodHRwOi8vd3d3LnczLm9yZy8yMDAwL3N2ZyI+CjxyZWN0IHdpZHRoPSIxNTAiIGhlaWdodD0iMTUwIiBmaWxsPSIjMzMzIi8+Cjx0ZXh0IHg9Ijc1IiB5PSI3NSIgZmlsbD0iI2ZmZiIgdGV4dC1hbmNob3I9Im1pZGRsZSIgZG9taW5hbnQtYmFzZWxpbmU9Im1pZGRsZSI+VmlkZW88L3RleHQ+Cjwvc3ZnPg==".

Definition processVideoFile (file : File.t) : promise (jsstring * Z * jsstring) :=
  let estimatedDuration := (File.size file / 100000)%Z in
  Resolved (videoReport P file estimatedDuration, estimatedDuration, videoThumbnail).

Definition getLanguageFromExtension (extension : jsstring) : jsstring :=
  let languageMap :=
    [ (".js", "JavaScript"); (".ts", "TypeScript"); (".jsx", "React JSX");
      (".tsx", "React TSX"); (".py", "Python"); (".java", "Java");
      (".cpp", "C++"); (".c", "C"); (".html", "HTML"); (".css", "CSS");
      (".json", "JSON"); (".xml", "XML"); (".yaml", "YAML");
      (".yml", "YAML") ]%string in
  match find (fun kv => str_eqb extension (js (fst kv))) languageMap with
  | Some kv => js (snd kv)
  | None => js "Unknown"
  end.

Definition processCodeFile (file : File.t) : promise jsstring :=
  text <~ processTextFile file ;;
  let extension := getFileExtension (File.name file) in
  let language := getLanguageFromExtension extension in
  Resolved (codeReport P file language text).

Definition processArchiveFile (file : File.t) : promise jsstring :=
  Resolved (archiveReport P file).

Definition processGenericFile (file : File.t) : promise jsstring :=
  catch
    (text <~ processTextFile file ;;
     Resolved (genericReport P file
                 (if (500 <? len text)%Z then substring text 0 500 ++ js "..."
                  else text)))
    (fun _ => Resolved (binaryReport P file)).

(** [case 't':] of a [switch (fileType)]. *)
Definition isCase (fileType : jsstring) (t : string) : bool :=
  str_eqb fileType (js t).

(** The [switch] of [processFile]: the text extracted and the metadata as
    the branch leaves them.  Every branch writes to [metadata] after its
    last [await] only, so a rejection leaves [metadata] as it was. *)
Definition dispatch (fileType : jsstring) (file : File.t) (metadata : Metadata.t)
    : promise (jsstring * Metadata.t) :=
  let withMedia thumbnail duration :=
    Metadata.mk (Metadata.originalName metadata) (Metadata.size metadata)
      (Metadata.lastModified metadata) (Metadata.type metadata)
      thumbnail duration in
  if isCase fileType "text" then
    extractedText <~ processTextFile file ;; Resolved (extractedText, metadata)
  else if isCase fileType "document" then
    extractedText <~ processDocumentFile file ;; Resolved (extractedText, metadata)
  else if isCase fileType "spreadsheet" then
    extractedText <~ processSpreadsheetFile file ;; Resolved (extractedText, metadata)
  else if isCase fileType "image" then
    extractedText <~ processImageFile file ;;
    thumbnail <~ generateImageThumbnail file ;;
    Resolved (extractedText, withMedia (Some thumbnail) None)
  else if isCase fileType "audio" then
    audioData <~ processAudioFile file ;;
    Resolved (fst audioData, withMedia None (Some (snd audioData)))
  else if isCase fileType "video" then
    videoData <~ processVideoFile file ;;
    let '(transcription, duration, thumbnail) := videoData in
    Resolved (transcription, withMedia (Some thumbnail) (Some duration))
  else if isCase fileType "code" then
    extractedText <~ processCodeFile file ;; Resolved (extractedText, metadata)
  else if isCase fileType "archive" then
    extractedText <~ processArchiveFile file ;; Resolved (extractedText, metadata)
  else
    extractedText <~ processGenericFile file ;; Resolved (extractedText, metadata).

Definition processFile (file : File.t) : promise ProcessedFile.t :=
  let extension := getFileExtension (File.name file) in
  let fileType := getFileType extension in
  let metadata :=
    Metadata.mk (File.name file) (File.size file) (File.lastModified file)
      (File.type file) None None in
  r <~ catch (dispatch fileType file metadata)
         (fun error =>
            Resolved (js "Error processing file: " ++ messageOf error, metadata)) ;;
  let '(extractedText, metadata) := r in
  Resolved (ProcessedFile.mk (File.name file) fileType (File.size file)
              extractedText (Some extractedText) (Some metadata)).

End Extractors.

End FileProcessor.

(** ** [EnhancedSpeechToTextService.estimateAudioDuration] *)

Module SpeechToText.
Import JS.

(** [audioBlob.size * 8 / avgBitrate], clamped by [Math.max(1,
    Math.min(., 7200))]; the quotient is kept as the exact rational the
    double approximates. *)
Definition avgBitrate (format : jsstring) : positive :=
  if includes format (js "webm") then 32000
  else if includes format (js "mp3") then 128000
  else if includes format (js "wav") then 1411000
  else if includes format (js "m4a") then 256000
  else 24000.

Definition estimateAudioDuration (size : Z) (format : jsstring) : QArith_base.Q :=
  let durationSeconds := QArith_base.Qmake (size * 8) (avgBitrate format) in
  Qminmax.Qmax (QArith_base.inject_Z 1)
    (Qminmax.Qmin durationSeconds (QArith_base.inject_Z 7200)).

End SpeechToText.

(** ** Vocabulary of the statements below: checks, closed forms, inputs *)

Module Vocabulary.
Import JS FileProcessor.

(** A list of strings without repetition. *)
Fixpoint distinct (l : list jsstring) : bool :=
  match l with
  | [] => true
  | x :: l' => negb (existsb (str_eqb x) l') && distinct l'
  end.

(** A newline. *)
Definition nl : string := String (ascii_of_nat 10) EmptyString.

(** Scenario A of the specification: two headings, one short line under
    each. *)
Definition scenarioA : jsstring :=
  js ("# Intro" ++ nl ++ "Hello" ++ nl ++ nl ++ "# Details" ++ nl ++ "World").

(** What the specification expects for scenario A, and what the headings
    and the text under them give when each section keeps its heading. *)
Definition scenarioA_expected : list Seg.t :=
  [Seg.mk (js "Intro") (js "Hello"); Seg.mk (js "Details") (js "World")].

Definition scenarioA_units : list Seg.t :=
  [Seg.mk (js "Intro") (js ("Intro" ++ nl ++ "Hello"));
   Seg.mk (js "Details") (js ("Details" ++ nl ++ "World"))].


(** A lone marker followed by two headings: three markers for two heading
    matches, the first of which spans two lines. *)
Definition loneMarker : jsstring := js ("#" ++ nl ++ "# foo" ++ nl ++ "# bar").

(** The units of the markdown-header strategy, in closed form: the k-th
    heading match paired with the k-th section after the first; the title
    is the match without its marker, the content the section, both
    trimmed; sections of 10 characters or less are dropped. *)
Fixpoint headerUnits (headerMatches sections : list jsstring) : list Seg.t :=
  match headerMatches, sections with
  | headerMatch :: matches, section :: rest =>
      if (10 <? len (trim section))%Z
      then Seg.mk (trim (replaceFirst headerStripRe headerMatch [])) (trim section)
           :: headerUnits matches rest
      else headerUnits matches rest
  | _, _ => []
  end.


(** A [JSON.parse] that rejects every payload. *)
Definition noJson (payload : jsstring) : option (option jsstring * jsstring) :=
  None.

(** A clock that does not advance and a random generator that repeats
    itself. *)
Definition frozenWorld : World :=
  {| newDate := 1700000000000;
     dateNow := fun _ => 1700000000000%Z;
     random36 := fun _ => js "0.4fzyo82mvyr" |}.

(** Scenario A as the text file [notes.md], once processed. *)
Definition notesFile : ProcessedFile.t :=
  ProcessedFile.mk (js "notes.md") (js "text") 30 scenarioA (Some scenarioA) None.

(** A browser in which the uploaded bytes are read without trouble but
    do not decode as an image (both [Image] elements fire [error]); the
    reports are left blank. *)
Definition undecodable : Platform :=
  {| readAsText := fun _ => ReaderLoad [];
     readAsDataURL := fun _ => ReaderLoad (js "data:image/png;base64,AAAA");
     loadObjectURL := fun _ => ImageError;
     loadDataURL := fun _ => ImageError;
     canvasStats := fun _ => Some ([], [], [], []);
     toDataURL := fun _ => [];
     pdfText := fun _ => Resolved [];
     wordText := fun _ => Resolved [];
     excelText := fun _ => Resolved [];
     csvReport := fun _ _ => [];
     extractionErrorReport := fun _ _ _ => [];
     imageReport := fun _ _ _ => [];
     audioReport := fun _ _ => [];
     videoReport := fun _ _ => [];
     codeReport := fun _ _ _ => [];
     archiveReport := fun _ => [];
     genericReport := fun _ _ => [];
     binaryReport := fun _ => [] |}.

(** A file named [report.doc]. *)
Definition reportDoc : File.t :=
  File.mk (js "report.doc") 4096 (js "application/msword") 0.

(** A 2 KB file named [scan.png]. *)
Definition scanPng : File.t :=
  File.mk (js "scan.png") 2048 (js "image/png") 0.

(** An 8000-byte file named [song.mp3]. *)
Definition songMp3 : File.t :=
  File.mk (js "song.mp3") 8000 (js "audio/mp3") 0.

(** A 100000-byte file named [clip.webm]. *)
Definition clipWebm : File.t :=
  File.mk (js "clip.webm") 100000 (js "video/webm") 0.

(** The file name [Istanbul.pdf] with a capital I with dot above (U+0130),
    and the same name in lower case. *)
Definition istanbulPdf : jsstring := 0x130%N :: js "stanbul.pdf".
Definition istanbulPdf_lower : jsstring := [0x69; 0x307]%N ++ js "stanbul.pdf".

(** The duration the pipeline records for a file, if it records one. *)
Definition recordedDuration (r : promise ProcessedFile.t) : option Z :=
  match r with
  | Resolved processedFile =>
      match ProcessedFile.metadata processedFile with
      | Some metadata => Metadata.duration metadata
      | None => None
      end
  | _ => None
  end.

(** The tags every note of a processed file is given. *)
Definition fileTags (processedFile : ProcessedFile.t) : list jsstring :=
  [ProcessedFile.type processedFile; js "uploaded"; js "extracted";
   replaceAll [plus isSpace]
     (toLowerCase (baseName (ProcessedFile.name processedFile))) (js "-")]
  ++ generateSmartTags processedFile.

(** Two names that differ only in the case of their letters: same length,
    and the same lower case position by position. *)
Definition sameUpToCase (a b : jsstring) : Prop :=
  Forall2 (fun x y => lowerUnit x = lowerUnit y) a b.

(** A code unit that may stand in an extension: neither a dot nor a
    slash. *)
Definition extensionUnit (c : N) : Prop := c <> 46%N /\ c <> 47%N.

(** [fileName] is [base], a dot, and the extension [ext]: at least one
    code unit, none of them a dot or a slash. *)
Definition hasExtension (fileName base ext : jsstring) : Prop :=
  fileName = base ++ js "." ++ ext /\ ext <> [] /\ Forall extensionUnit ext.

(** The title taken from what is left of a file name. *)
Definition titleFrom (stem : jsstring) : jsstring :=
  match stem with
  | [] => js "Extracted Content"
  | _ :: _ => stem
  end.

(** Every extension of a table starts with a dot. *)
Definition dotted (table : list (jsstring * list jsstring)) : bool :=
  forallb (fun entry =>
             forallb (fun ext => match ext with
                                 | c :: _ => (c =? 46)%N
                                 | [] => false
                                 end) (snd entry)) table.

End Vocabulary.

(** ** The analysis heuristics of [EnhancedSpeechToTextService] *)

Module SpeechAnalysis.
Import JS.

Definition commonTopics : list jsstring :=
  map js
    ["meeting"; "project"; "work"; "business"; "discussion"; "planning";
     "review"; "analysis"; "strategy"; "development"; "research"; "study";
     "presentation"; "training"; "interview"; "conversation";
     "brainstorming"]%string.

Definition extractTopics (transcription : jsstring) : list jsstring :=
  let foundTopics :=
    filter (fun topic => includes (toLowerCase transcription) topic)
      commonTopics in
  if (0 <? List.length foundTopics)%nat then firstn 3 foundTopics
  else [js "General discussion"].

(** [/[.!?]+/] *)
Definition sentenceEndRe : regex := [plus (oneOf ".!?")].

Definition extractKeyPoints (transcription : jsstring) : list jsstring :=
  let sentences :=
    filter (fun s => (10 <? len (trim s))%Z) (split sentenceEndRe transcription) in
  let keyPoints := map trim (firstn 5 sentences) in
  if (0 <? List.length keyPoints)%nat then keyPoints
  else [js "Content analyzed for key insights"].

(** [transcription.split(' ').length], the word count of
    [createStructuredAnalysis] and of [calculateSpeakingRate]. *)
Definition wordCount (transcription : jsstring) : nat :=
  List.length (split_char 32 transcription).

(** The table of [detectLanguage], in the order [Object.entries]
    enumerates it. *)
Definition languages : list (jsstring * list jsstring) :=
  [ (js "en", map js ["the"; "and"; "for"; "with"; "this"; "that"; "have"; "will"]);
    (js "es", map js ["el"; "la"; "de"; "que"; "y"; "en"; "un"; "es"]);
    (js "fr", map js ["le"; "la"; "de"; "et"; "en"; "un"; "est"; "pour"]);
    (js "de", map js ["der"; "die"; "das"; "und"; "in"; "den"; "von"; "mit"]) ]%string.

(** [words.filter(word => textLower.includes(word)).length] *)
Definition score (textLower : jsstring) (words : list jsstring) : nat :=
  List.length (filter (fun word => includes textLower word) words).

(** The [forEach] of [detectLanguage], with its two running variables. *)
Fixpoint detectLoop (entries : list (jsstring * list jsstring))
    (textLower bestMatch : jsstring) (bestScore : nat) : jsstring :=
  match entries with
  | [] => bestMatch
  | (lang, words) :: rest =>
      if (bestScore <? score textLower words)%nat
      then detectLoop rest textLower lang (score textLower words)
      else detectLoop rest textLower bestMatch bestScore
  end.

Definition detectLanguage (text : jsstring) : jsstring :=
  detectLoop languages (toLowerCase text) (js "en") 0.

End SpeechAnalysis.

(** ** The caller: [handleFileUpload] of the dashboard *)

Module Dashboard.
Import JS FileProcessor.

(** What is left behind once the handler has run as far as it can: the
    argument [saveNotes] was called with, if it was called, and the flag
    [isProcessingFiles], set at the start and cleared in [finally]. *)
Record UploadState : Type := {
  saveNotesCalledWith : option (list Note.t);
  isProcessingFiles : bool }.

Section Upload.

Variable P : Platform.
Variable jsonRow : jsstring -> option (option jsstring * jsstring).
(** The clock and the random generator as the k-th file finds them. *)
Variable worlds : nat -> World.
(** [saveNotes], of the authentication hook. *)
Variable saveNotes : list Note.t -> promise unit.

(** The [for ... of] loop, at the k-th file, [processedNotes] holding the
    notes of the files before it.  An exception thrown by
    [createNotesFromProcessedFile] rejects the handler's promise; its
    message, the engine's own wording, is only logged. *)
Fixpoint uploadLoop (files : list File.t) (k : nat)
    (processedNotes : list Note.t) : promise (list Note.t) :=
  match files with
  | [] => Resolved processedNotes
  | file :: rest =>
      await (processFile P file) (fun processedFile =>
        match createNotesFromProcessedFile jsonRow (worlds k) processedFile
                (js "Uploads") with
        | Ok extractedNotes => uploadLoop rest (S k) (processedNotes ++ extractedNotes)
        | Throw TypeError => Rejected (ErrorObj (js "TypeError"))
        end)
  end.

Definition handleFileUpload (files : list File.t) : UploadState :=
  match uploadLoop files 0 [] with
  | Resolved processedNotes =>
      if (0 <? List.length processedNotes)%nat then
        match saveNotes processedNotes with
        | Pending => {| saveNotesCalledWith := Some processedNotes;
                        isProcessingFiles := true |}
        | _ => {| saveNotesCalledWith := Some processedNotes;
                  isProcessingFiles := false |}
        end
      else {| saveNotesCalledWith := None; isProcessingFiles := false |}
  | Rejected _ => {| saveNotesCalledWith := None; isProcessingFiles := false |}
  | Pending => {| saveNotesCalledWith := None; isProcessingFiles := true |}
  end.

End Upload.

End Dashboard.

(** ** More vocabulary *)

Module Terms.
Import JS FileProcessor Dashboard Vocabulary.

(** A string without white space at either end. *)
Definition trimmed (s : jsstring) : Prop := trim s = s.

(** A unit titled by the first line of its content, cut after 50
    characters. *)
Definition wellTitled (u : Seg.t) : Prop :=
  Seg.title u = truncTitle (firstLine (Seg.content u))
  /\ Seg.title u <> []
  /\ (len (Seg.title u) <= 53)%Z.

(** One of the four strategies that cut the text along its structure is
    selected. *)
Definition structural (content : jsstring) : bool :=
  (1 <? List.length (matchAll headerRe content))%nat
  || (2 <? List.length (split numberedRe content))%nat
  || (1 <? List.length (filter (fun p => (50 <? len (trim p))%Z)
                          (split paragraphRe content)))%nat
  || (2 <? List.length (split bulletRe content))%nat.

(** The text is handed over to the fixed-size chunking. *)
Definition chunked (content : jsstring) : bool :=
  negb (structural content)
  && negb ((includes content (js "Row 1:") || includes content (js "Columns:"))
           && (1 <? List.length (matchAll rowRe content))%nat)
  && (1000 <? len content)%Z.

(** The row strategy is selected. *)
Definition rowed (content : jsstring) : bool :=
  negb (structural content)
  && (includes content (js "Row 1:") || includes content (js "Columns:"))
  && (1 <? List.length (matchAll rowRe content))%nat.

(** A CSV preview of two rows. *)
Definition rowsText : jsstring :=
  js ("Columns: a, b" ++ nl ++ "Row 1: x" ++ nl ++ "Row 2: y").

(** The seven smart tags, in the order they are pushed. *)
Definition smartTags : list jsstring :=
  map js ["large-file"; "small-file"; "meeting"; "project"; "research";
          "report"; "presentation"]%string.

(** [l] keeps some of the elements of [l'], in their order. *)
Inductive sublist {A : Type} : list A -> list A -> Prop :=
| sublist_nil : sublist [] []
| sublist_skip x l l' : sublist l l' -> sublist l (x :: l')
| sublist_keep x l l' : sublist l l' -> sublist (x :: l) (x :: l').

(** The five note types. *)
Definition noteTypes : list noteTypeValue :=
  map (fun name => TypeName (js name))
      ["text"; "document"; "image"; "audio"; "video"]%string.

(** A code unit of Basic Latin, Latin-1 Supplement or Latin Extended-A:
    the range on which [lowerUnit] is the lower-casing of the language,
    one code unit at a time and whatever stands around it. *)
Definition latin (c : N) : Prop := (c <= 0x17F)%N.

(** A code unit whose lower case is one code unit. *)
Definition plainUnit (c : N) : Prop := List.length (lowerUnit c) = 1%nat.

(** The notes [handleFileUpload] gathers when every file, from the k-th
    on, is processed and segmented without incident. *)
Inductive gathered (P : Platform)
    (jsonRow : jsstring -> option (option jsstring * jsstring))
    (worlds : nat -> World) : nat -> list File.t -> list Note.t -> Prop :=
| gathered_nil k : gathered P jsonRow worlds k [] []
| gathered_cons k file rest processedFile notes more :
    processFile P file = Resolved processedFile ->
    createNotesFromProcessedFile jsonRow (worlds k) processedFile (js "Uploads")
    = Ok notes ->
    gathered P jsonRow worlds (S k) rest more ->
    gathered P jsonRow worlds k (file :: rest) (notes ++ more).

(** A text file that reads as scenario A, one whose notes cannot be cut,
    and the platforms that serve them. *)
Definition readsAs (text : jsstring) : Platform :=
  {| readAsText := fun _ => ReaderLoad text;
     readAsDataURL := readAsDataURL undecodable;
     loadObjectURL := loadObjectURL undecodable;
     loadDataURL := loadDataURL undecodable;
     canvasStats := canvasStats undecodable;
     toDataURL := toDataURL undecodable;
     pdfText := pdfText undecodable;
     wordText := wordText undecodable;
     excelText := excelText undecodable;
     csvReport := csvReport undecodable;
     extractionErrorReport := extractionErrorReport undecodable;
     imageReport := imageReport undecodable;
     audioReport := audioReport undecodable;
     videoReport := videoReport undecodable;
     codeReport := codeReport undecodable;
     archiveReport := archiveReport undecodable;
     genericReport := genericReport undecodable;
     binaryReport := binaryReport undecodable |}.

(** A platform on which every read fails. *)
Definition unreadable : Platform :=
  {| readAsText := fun _ => ReaderError;
     readAsDataURL := fun _ => ReaderError;
     loadObjectURL := loadObjectURL undecodable;
     loadDataURL := loadDataURL undecodable;
     canvasStats := canvasStats undecodable;
     toDataURL := toDataURL undecodable;
     pdfText := pdfText undecodable;
     wordText := wordText undecodable;
     excelText := excelText undecodable;
     csvReport := csvReport undecodable;
     extractionErrorReport := extractionErrorReport undecodable;
     imageReport := imageReport undecodable;
     audioReport := audioReport undecodable;
     videoReport := videoReport undecodable;
     codeReport := codeReport undecodable;
     archiveReport := archiveReport undecodable;
     genericReport := genericReport undecodable;
     binaryReport := binaryReport undecodable |}.

Definition notesMd : File.t := File.mk (js "notes.md") 30 (js "text/markdown") 0.
Definition dataCsv : File.t := File.mk (js "data.csv") 512 (js "text/csv") 0.
Definition mainTs : File.t := File.mk (js "main.ts") 512 (js "text/plain") 0.

Definition bulletText : jsstring :=
  js ("- Review the quarterly budget figures" ++ nl
      ++ "- Prepare the slides for the board").
Definition paragraphText : jsstring :=
  js ("The first paragraph is long enough to be kept as a note of its own."
      ++ nl ++ nl
      ++ "The second paragraph is long enough to be kept as a note as well.").

End Terms.

(** * Properties *)

Import JS FileProcessor Vocabulary.
Local Open Scope Z_scope.
Unset Implicit Arguments.

(** ** Strings *)

Lemma str_eqb_eq (a b : jsstring) : str_eqb a b = true <-> a = b.
Proof.
  unfold str_eqb. destruct (list_eq_dec N.eq_dec a b); split; congruence.
Qed.

Lemma str_eqb_refl (a : jsstring) : str_eqb a a = true.
Proof. now apply str_eqb_eq. Qed.

Lemma dropWhile_length (p : N -> bool) (s : jsstring) :
  (List.length (dropWhile p s) <= List.length s)%nat.
Proof.
  induction s as [|c s IH]; simpl; [lia|].
  destruct (p c); simpl; lia.
Qed.

Lemma trim_length (s : jsstring) : (List.length (trim s) <= List.length s)%nat.
Proof.
  unfold trim, trimEnd, trimStart.
  rewrite length_rev.
  etransitivity; [apply dropWhile_length|].
  rewrite length_rev. apply dropWhile_length.
Qed.

Lemma substring_0_length (s : jsstring) (n : Z) :
  0 <= n -> len (substring s 0 n) <= n.
Proof.
  intros Hn. unfold substring, len, clamp.
  rewrite length_firstn. lia.
Qed.

(** ** The loops run to completion

    The loops of [match], [split], [replace] and of the chunking are
    written with a counter; the counter they are started with is never
    exhausted: any larger one gives the same result. *)

Lemma search_bounds (re : regex) :
  forall s prev i n, search re prev s = Some (i, n) -> (i <= List.length s)%nat.
Proof.
  induction s as [|c s IH]; intros prev i n H; simpl in H.
  - destruct (matchHere re prev []); [injection H as <- _; lia | discriminate].
  - destruct (matchHere re prev (c :: s)); [injection H as <- _; simpl; lia|].
    destruct (search re (Some c) s) as [[i' n']|] eqn:E; [|discriminate].
    injection H as <- _. apply IH in E. simpl. lia.
Qed.

Lemma matchAllFrom_fuel (re : regex) :
  forall fuel1 fuel2 prev s,
    (List.length s < fuel1)%nat -> (List.length s < fuel2)%nat ->
    matchAllFrom fuel1 re prev s = matchAllFrom fuel2 re prev s.
Proof.
  induction fuel1 as [|fuel1 IH]; intros [|fuel2] prev s H1 H2; try lia.
  simpl. destruct (search re prev s) as [[i n]|]; [|reflexivity].
  destruct (List.length s <? _)%nat eqn:E; [reflexivity|].
  apply Nat.ltb_ge in E. f_equal.
  apply IH; rewrite length_skipn; destruct n; lia.
Qed.

Lemma replaceAllFrom_fuel (re : regex) (by_ : jsstring) :
  forall fuel1 fuel2 prev s,
    (List.length s < fuel1)%nat -> (List.length s < fuel2)%nat ->
    replaceAllFrom fuel1 re prev s by_ = replaceAllFrom fuel2 re prev s by_.
Proof.
  induction fuel1 as [|fuel1 IH]; intros [|fuel2] prev s H1 H2; try lia.
  simpl. destruct (search re prev s) as [[i n]|]; [|reflexivity].
  destruct (List.length s <? _)%nat eqn:E; [reflexivity|].
  apply Nat.ltb_ge in E. do 3 f_equal.
  apply IH; rewrite length_skipn; destruct n; lia.
Qed.

Lemma splitLoop_fuel (re : regex) :
  forall fuel1 fuel2 prev (rest cur : jsstring) (fresh : bool),
    (2 * List.length rest + (if fresh then 0 else 1) < fuel1)%nat ->
    (2 * List.length rest + (if fresh then 0 else 1) < fuel2)%nat ->
    splitLoop fuel1 re prev rest cur fresh = splitLoop fuel2 re prev rest cur fresh.
Proof.
  induction fuel1 as [|fuel1 IH]; intros [|fuel2] prev rest cur fresh H1 H2;
    try lia.
  simpl. destruct rest as [|c rest']; [reflexivity|].
  simpl List.length in H1, H2.
  destruct (matchHere re prev (c :: rest')) as [n|].
  - destruct ((n =? 0)%nat && fresh) eqn:E.
    + apply IH; destruct fresh; lia.
    + f_equal. apply IH; rewrite length_skipn; simpl List.length;
        destruct n, fresh; simpl in E; try discriminate; lia.
  - apply IH; destruct fresh; lia.
Qed.

Lemma chunksFrom_fuel (chunkSize : nat) :
  (0 < chunkSize)%nat ->
  forall fuel1 fuel2 s,
    (List.length s <= fuel1)%nat -> (List.length s <= fuel2)%nat ->
    chunksFrom fuel1 chunkSize s = chunksFrom fuel2 chunkSize s.
Proof.
  intros Hsize.
  induction fuel1 as [|fuel1 IH]; intros fuel2 s H1 H2.
  - destruct s; [|simpl in H1; lia]. now destruct fuel2.
  - destruct fuel2 as [|fuel2]; [destruct s; [reflexivity | simpl in H2; lia]|].
    simpl. destruct s as [|c s']; [reflexivity|]. f_equal.
    apply IH; rewrite length_skipn; simpl List.length in *; lia.
Qed.

(** ** Table well-formedness *)

Lemma distinct_NoDup (l : list jsstring) : distinct l = true -> NoDup l.
Proof.
  induction l as [|x l IH]; simpl; intros H; constructor.
  - apply andb_prop in H as [H _]. intros Hin.
    apply negb_true_iff in H.
    assert (existsb (str_eqb x) l = true) as E
      by (apply existsb_exists; exists x; split; [exact Hin | apply str_eqb_refl]).
    congruence.
  - apply IH. now apply andb_prop in H as [_ H].
Qed.

Lemma NoDup_app_disjoint {A : Type} (l1 l2 : list A) (x : A) :
  NoDup (l1 ++ l2) -> In x l1 -> In x l2 -> False.
Proof.
  induction l1 as [|a l1 IH]; simpl; intros Hnd H1 H2; [easy|].
  inversion Hnd as [|? ? Hnotin Hnd']; subst.
  destruct H1 as [->|H1].
  - apply Hnotin, in_or_app. now right.
  - now apply IH.
Qed.

Lemma NoDup_app_right {A : Type} (l1 l2 : list A) : NoDup (l1 ++ l2) -> NoDup l2.
Proof.
  induction l1 as [|a l1 IH]; simpl; intros H; [exact H|].
  inversion H; subst. now apply IH.
Qed.

(** In a table whose extension lists, put end to end, repeat nothing, an
    extension belongs to one entry only. *)
Lemma table_unique_entry (T : list (jsstring * list jsstring)) :
  NoDup (flat_map snd T) ->
  forall p1 p2 x, In p1 T -> In p2 T -> In x (snd p1) -> In x (snd p2) -> p1 = p2.
Proof.
  induction T as [|p T IH]; simpl; intros Hnd p1 p2 x H1 H2 Hx1 Hx2; [easy|].
  assert (forall q, In q T -> In x (snd q) -> In x (flat_map snd T)) as Hflat
    by (intros q Hq Hxq; apply in_flat_map; now exists q).
  destruct H1 as [<-|H1], H2 as [<-|H2].
  - reflexivity.
  - exfalso. eapply NoDup_app_disjoint; eauto.
  - exfalso. eapply NoDup_app_disjoint; eauto.
  - apply NoDup_app_right in Hnd. eapply IH; eauto.
Qed.

Lemma SUPPORTED_TYPES_NoDup : NoDup (flat_map snd SUPPORTED_TYPES).
Proof. apply distinct_NoDup. vm_compute. reflexivity. Qed.

Lemma SUPPORTED_TYPES_keys_NoDup : NoDup (map fst SUPPORTED_TYPES).
Proof. apply distinct_NoDup. vm_compute. reflexivity. Qed.

(** C7. No extension of the classifier table is listed under two
    categories: two entries of [SUPPORTED_TYPES] that share an extension
    are the same category. *)
Theorem SUPPORTED_TYPES_disjoint :
  forall type1 exts1 type2 exts2 ext,
    In (type1, exts1) SUPPORTED_TYPES ->
    In (type2, exts2) SUPPORTED_TYPES ->
    In ext exts1 -> In ext exts2 ->
    type1 = type2.
Proof.
  intros type1 exts1 type2 exts2 ext H1 H2 Hx1 Hx2.
  assert ((type1, exts1) = (type2, exts2)) as E
    by (eapply table_unique_entry; eauto using SUPPORTED_TYPES_NoDup).
  congruence.
Qed.

Lemma SUPPORTED_TYPES_disjoint_witness :
  js "audio" = js "audio".
Proof.
  apply (SUPPORTED_TYPES_disjoint
           (js "audio")
           (map js [".mp3"; ".wav"; ".ogg"; ".m4a"; ".flac"; ".aac"]%string)
           (js "audio")
           (map js [".mp3"; ".wav"; ".ogg"; ".m4a"; ".flac"; ".aac"]%string)
           (js ".wav")).
  - simpl. do 5 right. left. reflexivity.
  - simpl. do 5 right. left. reflexivity.
  - simpl. right. left. reflexivity.
  - simpl. right. left. reflexivity.
Defined.

(** ** Summaries *)

(** The ellipsis is always appended to a summary that was cut: the
    trimmed prefix is shorter than the content. *)
Lemma generateSummary_rule (processedFile : ProcessedFile.t) :
  let content := ProcessedFile.content processedFile in
  generateSummary processedFile =
  if len content <=? 200 then content
  else trim (substring content 0 150) ++ js "...".
Proof.
  intros content. unfold generateSummary. fold content.
  destruct (len content <=? 200) eqn:E; [reflexivity|].
  apply Z.leb_gt in E.
  assert (len (trim (substring content 0 150)) <= 150) as H.
  { pose proof (trim_length (substring content 0 150)).
    pose proof (substring_0_length content 150 ltac:(lia)).
    unfold len in *. lia. }
  assert ((len (trim (substring content 0 150)) <? len content) = true) as ->
    by (apply Z.ltb_lt; lia).
  reflexivity.
Qed.

(** ** Segmentation *)

Lemma nth_error_skipn {A : Type} (l : list A) :
  forall j x, nth_error l j = Some x -> skipn j l = x :: skipn (S j) l.
Proof.
  induction l as [|a l IH]; intros [|j] x H; simpl in *; try discriminate.
  - now injection H as ->.
  - now apply IH.
Qed.

(** The loop of method 1, when it returns, returns the closed form. *)
Lemma headerNotes_units (headerMatches : list jsstring) :
  forall sections j notes,
    headerNotes headerMatches sections (S j) = Ok notes ->
    notes = headerUnits (skipn j headerMatches) sections.
Proof.
  induction sections as [|section rest IH]; intros j notes H.
  - simpl in H. injection H as <-. now destruct (skipn j headerMatches).
  - simpl in H. rewrite Nat.sub_0_r in H.
    destruct (nth_error headerMatches j) as [headerMatch|] eqn:Ej;
      [|discriminate].
    rewrite (nth_error_skipn _ _ _ Ej).
    destruct (headerNotes headerMatches rest (S (S j))) as [notes'|] eqn:E;
      simpl in H; [|discriminate].
    apply IH in E. subst notes'. simpl headerUnits.
    destruct (10 <? len (trim section)); now injection H as <-.
Qed.

(** It returns when no section is left without a heading match. *)
Lemma headerNotes_returns (headerMatches : list jsstring) :
  forall sections j,
    (List.length sections + j <= List.length headerMatches)%nat ->
    headerNotes headerMatches sections (S j)
    = Ok (headerUnits (skipn j headerMatches) sections).
Proof.
  induction sections as [|section rest IH]; intros j Hlen.
  - simpl. now destruct (skipn j headerMatches).
  - simpl in Hlen. simpl headerNotes. rewrite Nat.sub_0_r.
    destruct (nth_error headerMatches j) as [headerMatch|] eqn:Ej.
    + rewrite (nth_error_skipn _ _ _ Ej).
      rewrite IH by lia. simpl.
      destruct (10 <? len (trim section)); reflexivity.
    + apply nth_error_None in Ej. lia.
Qed.



(** C1 (as amended). On scenario A, whatever the file name, segmentation
    returns two units, titled by the headings, and each unit's content
    keeps its heading's text as first line: [("Intro", "Intro\nHello")] and
    [("Details", "Details\nWorld")].  In general, when the markdown-header
    strategy applies and returns, its units are, in order, the sections
    the text is cut into by the heading markers (the [#]s and the white
    space after them; the section before the first marker is skipped),
    trimmed, those of 10 characters or less dropped, each under the title
    of the heading match of the same rank. *)
Theorem extractNotes_headers
    (jsonRow : jsstring -> option (option jsstring * jsstring))
    (fileName : jsstring) :
  extractNotesFromContent jsonRow scenarioA fileName = Ok scenarioA_units
  /\ forall content notes,
      (1 < List.length (matchAll headerRe content))%nat ->
      extractNotesFromContent jsonRow content fileName = Ok notes ->
      notes = headerUnits (matchAll headerRe content)
                (tl (split headerMarkRe content)).
Proof.
  split.
  - vm_compute. reflexivity.
  - intros content notes Hm H. unfold extractNotesFromContent in H.
    apply Nat.ltb_lt in Hm. rewrite Hm in H.
    now apply headerNotes_units in H.
Qed.

Lemma extractNotes_headers_witness :
  scenarioA_units
  = headerUnits (matchAll headerRe scenarioA) (tl (split headerMarkRe scenarioA)).
Proof.
  apply (proj2 (extractNotes_headers noJson (js "notes.md")) scenarioA).
  - vm_compute. lia.
  - vm_compute. reflexivity.
Defined.

(** C1, as stated, fails on scenario A: the units returned are not
    [("Intro", "Hello")] and [("Details", "World")]. *)
Lemma scenarioA_not_as_expected :
  extractNotesFromContent noJson scenarioA (js "notes.md") <> Ok scenarioA_expected.
Proof. vm_compute. discriminate. Qed.


(** When the text holds more markers than heading matches, the loop of
    method 1 reads [headerMatches] past its end and throws. *)
Lemma loneMarker_throws :
  extractNotesFromContent noJson loneMarker (js "notes.md") = Throw TypeError.
Proof. vm_compute. reflexivity. Qed.




(** Scenario B of the specification: 2500 characters without structure
    come back as four chunks of at most 800 characters. *)
Example scenarioB_four_chunks :
  match extractNotesFromContent noJson (repeat 97%N 2500) (js "long.txt") with
  | Ok notes =>
      List.length notes = 4%nat
      /\ Forall (fun u => len (Seg.content u) <= 800) notes
  | Throw _ => False
  end.
Proof.
  vm_compute. split; [reflexivity|].
  repeat constructor; discriminate.
Qed.

(** *** The single-unit fallback *)

Lemma rep_Eos_stuck (cls : N -> bool) :
  forall s lo hi prev,
    (exists c, In c s /\ cls c = false) ->
    rep (matchHere [Eos]) cls lo hi prev s = None.
Proof.
  induction s as [|c s IH]; intros lo hi prev [b [Hin Hb]]; [easy|].
  assert (match lo with O => matchHere [Eos] prev (c :: s) | S _ => None end
          = None) as Hstop by (destruct lo; reflexivity).
  simpl rep. destruct (cls c) eqn:Ec; simpl; [|destruct lo; reflexivity].
  destruct hi as [[|h]|]; try (destruct lo; reflexivity).
  - rewrite IH; [destruct lo; reflexivity|].
    destruct Hin as [->|Hin]; [congruence | eauto].
  - rewrite IH; [destruct lo; reflexivity|].
    destruct Hin as [->|Hin]; [congruence | eauto].
Qed.

Lemma rep_Eos_all (cls : N -> bool) :
  forall s lo prev,
    Forall (fun c => cls c = true) s ->
    (lo <= List.length s)%nat ->
    rep (matchHere [Eos]) cls lo None prev s = Some (List.length s).
Proof.
  induction s as [|c s IH]; intros lo prev Hall Hlo.
  - simpl in Hlo. assert (lo = O) as -> by lia. reflexivity.
  - inversion Hall as [|? ? Hc Hs]; subst.
    simpl rep. rewrite Hc. simpl.
    rewrite IH; [reflexivity | exact Hs | simpl in Hlo; lia].
Qed.

Lemma search_here (re : regex) (prev : option N) (s : jsstring) (n : nat) :
  matchHere re prev s = Some n -> search re prev s = Some (O, n).
Proof. intros H. destruct s; simpl; now rewrite H. Qed.

Lemma search_next (re : regex) (prev : option N) (c : N) (s : jsstring) :
  matchHere re prev (c :: s) = None ->
  search re prev (c :: s)
  = match search re (Some c) s with
    | Some (i, n) => Some (S i, n)
    | None => None
    end.
Proof. intros H. simpl. now rewrite H. Qed.

Lemma search_extension (ext : jsstring) :
  ext <> [] ->
  Forall (fun c => negb (oneOf "/." c) = true) ext ->
  forall base prev,
    search extensionRe prev (base ++ js "." ++ ext)
    = Some (List.length base, S (List.length ext)).
Proof.
  intros Hne Hext.
  induction base as [|c base IH]; intros prev.
  - apply search_here. simpl.
    rewrite rep_Eos_all; [reflexivity | exact Hext |].
    destruct ext; [congruence | simpl; lia].
  - simpl app. rewrite search_next.
    + rewrite IH. reflexivity.
    + simpl. destruct (oneOf "." c); [|reflexivity].
      rewrite rep_Eos_stuck; [reflexivity|].
      exists 46%N. split; [|reflexivity].
      apply in_or_app. right. now left.
Qed.

(** X6. [baseName] removes the extension: the last dot and what follows it,
    when that is not empty and holds no slash. *)
Lemma baseName_strips_extension (base ext : jsstring) :
  ext <> [] ->
  Forall (fun c => negb (oneOf "/." c) = true) ext ->
  baseName (base ++ js "." ++ ext) = base.
Proof.
  intros Hne Hext. unfold baseName, replaceFirst.
  rewrite search_extension by assumption.
  rewrite firstn_app, firstn_all, Nat.sub_diag. simpl firstn.
  rewrite skipn_app.
  rewrite skipn_all2 by lia.
  replace (List.length base + S (List.length ext) - List.length base)%nat
    with (List.length (js "." ++ ext)) by (simpl; lia).
  rewrite skipn_all. now rewrite !app_nil_r.
Qed.

Lemma extensionUnit_class (c : N) :
  negb (oneOf "/." c) = true <-> extensionUnit c.
Proof.
  unfold oneOf, extensionUnit. simpl.
  destruct (N.eqb_spec c 47); destruct (N.eqb_spec c 46); simpl;
    split; intros H; try discriminate; try reflexivity; try tauto; lia.
Qed.

Lemma extensionUnit_all (ext : jsstring) :
  Forall (fun c => negb (oneOf "/." c) = true) ext <-> Forall extensionUnit ext.
Proof.
  split; intros H; eapply Forall_impl; try exact H;
    intros c; apply extensionUnit_class.
Qed.

Lemma rep_cons (k : option N -> jsstring -> option nat) (cls : N -> bool)
    (lo : nat) (hi : option nat) (prev : option N) (c : N) (s : jsstring) :
  rep k cls lo hi prev (c :: s)
  = if cls c && match hi with Some O => false | _ => true end then
      match rep k cls (Nat.pred lo) (option_map Nat.pred hi) (Some c) s with
      | Some n => Some (S n)
      | None => match lo with O => k prev (c :: s) | S _ => None end
      end
    else match lo with O => k prev (c :: s) | S _ => None end.
Proof. reflexivity. Qed.

(** What a match of [cls+$] says of the text it matched. *)
Lemma rep_Eos_matched (cls : N -> bool) :
  forall s lo hi prev n,
    rep (matchHere [Eos]) cls lo hi prev s = Some n ->
    Forall (fun c => cls c = true) s /\ (lo <= List.length s)%nat.
Proof.
  induction s as [|c s IH]; intros lo hi prev n H.
  - destruct lo; [split; [constructor | simpl; lia] | discriminate H].
  - assert (match lo with O => matchHere [Eos] prev (c :: s) | S _ => None end
            = None) as Hstop by (destruct lo; reflexivity).
    rewrite rep_cons, Hstop in H.
    destruct (cls c) eqn:Ec; [|discriminate H].
    destruct (rep (matchHere [Eos]) cls (Nat.pred lo) (option_map Nat.pred hi)
                (Some c) s) as [m|] eqn:E;
      [|destruct (true && _); discriminate H].
    apply IH in E as [Hall Hlo].
    split; [now constructor | simpl; lia].
Qed.

(** The title pattern matches nowhere but at an extension. *)
Lemma search_extension_found :
  forall s prev i n,
    search extensionRe prev s = Some (i, n) ->
    exists base ext, hasExtension s base ext.
Proof.
  induction s as [|c s IH]; intros prev i n H; [discriminate H|].
  destruct (matchHere extensionRe prev (c :: s)) as [m|] eqn:Em.
  - clear H IH.
    change (matchHere extensionRe prev (c :: s))
      with (if oneOf "." c
            then option_map S
                   (rep (matchHere [Eos]) (fun c => negb (oneOf "/." c)) 1 None
                      (Some c) s)
            else None) in Em.
    destruct (oneOf "." c) eqn:Ec; [|discriminate Em].
    destruct (rep (matchHere [Eos]) (fun c => negb (oneOf "/." c)) 1 None
                (Some c) s) as [k|] eqn:Er; [|discriminate Em].
    apply rep_Eos_matched in Er as [Hall Hlo].
    exists [], s. repeat split.
    + unfold oneOf in Ec. simpl in Ec. rewrite orb_false_r in Ec.
      apply N.eqb_eq in Ec. now subst c.
    + intros ->. simpl in Hlo. lia.
    + now apply extensionUnit_all.
  - rewrite search_next in H by exact Em.
    destruct (search extensionRe (Some c) s) as [[j m]|] eqn:Es;
      [|discriminate H].
    destruct (IH _ _ _ Es) as [base [ext [-> [Hne Hall]]]].
    exists (c :: base), ext. repeat split; assumption.
Qed.

(** C6. A text of at most 1000 characters that triggers no structural
    strategy comes back as one unit, whose content is the whole text and
    whose title is the file name with its extension stripped: for a name
    [base.ext], with [ext] not empty and free of dots and slashes, the
    title is [base]; for a name without such an extension it is the name
    itself; and it is ["Extracted Content"] when what is left is empty. *)
Theorem extractNotes_single_unit
    (jsonRow : jsstring -> option (option jsstring * jsstring))
    (content fileName : jsstring) :
  len content <= 1000 ->
  (List.length (matchAll headerRe content) < 2)%nat ->
  (List.length (split numberedRe content) <= 2)%nat ->
  (List.length (filter (fun p => (50 <? len (trim p))%Z)
                  (split paragraphRe content)) <= 1)%nat ->
  (List.length (split bulletRe content) <= 2)%nat ->
  includes content (js "Row 1:") = false ->
  includes content (js "Columns:") = false ->
  exists title,
    extractNotesFromContent jsonRow content fileName = Ok [Seg.mk title content]
    /\ (forall base ext,
          hasExtension fileName base ext -> title = titleFrom base)
    /\ ((forall base ext, ~ hasExtension fileName base ext) ->
        title = titleFrom fileName).
Proof.
  intros Hlen Hh Hn Hp Hb Hr Hc. unfold extractNotesFromContent.
  assert ((1 <? List.length (matchAll headerRe content))%nat = false) as ->
    by (apply Nat.ltb_ge; lia).
  assert ((2 <? List.length (split numberedRe content))%nat = false) as ->
    by (apply Nat.ltb_ge; lia).
  assert ((1 <? List.length (filter (fun p => (50 <? len (trim p))%Z)
                               (split paragraphRe content)))%nat = false) as ->
    by (apply Nat.ltb_ge; lia).
  assert ((2 <? List.length (split bulletRe content))%nat = false) as ->
    by (apply Nat.ltb_ge; lia).
  rewrite Hr, Hc. simpl orb. simpl andb.
  assert ((1000 <? len content) = false) as -> by (apply Z.ltb_ge; lia).
  eexists. split; [reflexivity|]. split.
  - intros base ext [-> [Hne Hall]].
    apply extensionUnit_all in Hall.
    unfold baseName, replaceFirst.
    rewrite search_extension by assumption.
    rewrite firstn_app, firstn_all, Nat.sub_diag. simpl firstn.
    rewrite skipn_app.
    rewrite skipn_all2 by lia.
    replace (List.length base + S (List.length ext) - List.length base)%nat
      with (List.length (js "." ++ ext)) by (simpl; lia).
    rewrite skipn_all, !app_nil_r. now destruct base.
  - intros Hnone. unfold baseName, replaceFirst.
    destruct (search extensionRe None fileName) as [[i n]|] eqn:Es.
    + apply search_extension_found in Es as [base [ext H]].
      now apply Hnone in H.
    + now destruct fileName.
Qed.

Lemma extractNotes_single_unit_witness :
  exists title,
    extractNotesFromContent noJson (js "Buy milk") (js "todo.txt")
    = Ok [Seg.mk title (js "Buy milk")]
    /\ title = js "todo".
Proof.
  destruct (extractNotes_single_unit noJson (js "Buy milk") (js "todo.txt"))
    as [title [H [Hext _]]];
    try (vm_compute; first [reflexivity | lia | discriminate]).
  exists title. split; [exact H|].
  apply (Hext (js "todo") (js "txt")).
  repeat split; try discriminate; repeat constructor; discriminate.
Defined.

(** ** Note synthesis *)

Lemma js_inj (a b : string) : js a = js b -> a = b.
Proof.
  unfold js. intros H.
  rewrite <- (string_of_list_ascii_of_string a),
          <- (string_of_list_ascii_of_string b).
  f_equal. revert H.
  generalize (list_ascii_of_string a) (list_ascii_of_string b).
  intros l. induction l as [|x l IH]; intros [|y l0]; simpl; try easy.
  intros [= Hxy Hl]. f_equal; [|now apply IH].
  rewrite <- (ascii_N_embedding x), <- (ascii_N_embedding y). now f_equal.
Qed.

Lemma ofNat_inj (i j : nat) : ofNat i = ofNat j -> i = j.
Proof.
  unfold ofNat. intros H. apply js_inj in H.
  assert (Some (Nat.to_uint i) = Some (Nat.to_uint j)) as E
    by (rewrite <- !NilEmpty.usu; now f_equal).
  injection E as E.
  rewrite <- (DecimalNat.Unsigned.of_to i), <- (DecimalNat.Unsigned.of_to j).
  now f_equal.
Qed.

Lemma uint_no_underscore (d : Decimal.uint) :
  ~ In 95%N (js (NilEmpty.string_of_uint d)).
Proof.
  induction d; cbn; [easy | intros [H|H]; [discriminate H | easy] ..].
Qed.

Lemma ofNat_no_underscore (n : nat) : ~ In 95%N (ofNat n).
Proof. apply uint_no_underscore. Qed.

Lemma ofZ_no_underscore (z : Z) : ~ In 95%N (ofZ z).
Proof.
  unfold ofZ. destruct (Z.to_int z) as [d|d]; simpl.
  - apply uint_no_underscore.
  - intros [H|H]; [discriminate H | now apply uint_no_underscore in H].
Qed.

(** Two strings cut at the first occurrence of a separator. *)
Lemma app_sep_inj (sep : N) :
  forall a a' b b' : jsstring,
    ~ In sep a -> ~ In sep a' ->
    a ++ sep :: b = a' ++ sep :: b' -> a = a' /\ b = b'.
Proof.
  induction a as [|x a IH]; intros [|y a'] b b' Ha Ha' E; simpl in *.
  - now injection E as ->.
  - injection E as <- _. tauto.
  - injection E as -> _. tauto.
  - injection E as -> E.
    destruct (IH a' b b') as [-> ->]; tauto.
Qed.

(** The index is part of the id, between two underscores that neither
    the timestamp nor the index can contain: two ids agree on their
    index. *)
Lemma noteId_inj (world : World) (i j : nat) :
  noteId world i = noteId world j -> i = j.
Proof.
  unfold noteId. intros H.
  apply app_inv_head in H.
  change (js "_") with [95%N] in H. simpl app in H.
  apply app_sep_inj in H as [_ H]; try apply ofZ_no_underscore.
  apply app_sep_inj in H as [H _]; try apply ofNat_no_underscore.
  now apply ofNat_inj.
Qed.

Lemma mapi_length {A B : Type} (f : nat -> A -> B) (l : list A) :
  forall i, List.length (mapi f l i) = List.length l.
Proof. induction l; simpl; intros; [reflexivity | now rewrite IHl]. Qed.

Lemma mapi_In {A B : Type} (f : nat -> A -> B) (l : list A) :
  forall i y, In y (mapi f l i) -> exists k x, In x l /\ y = f k x.
Proof.
  induction l as [|x l IH]; simpl; intros i y H; [easy|].
  destruct H as [<-|H]; [eauto|].
  destruct (IH _ _ H) as [k [x' [Hin ->]]]. eauto.
Qed.

Lemma mapi_map_seq {A B C : Type} (f : nat -> A -> B) (g : B -> C)
    (h : nat -> C) (l : list A) :
  (forall k x, g (f k x) = h k) ->
  forall i, map g (mapi f l i) = map h (seq i (List.length l)).
Proof.
  intros Hg. induction l as [|x l IH]; simpl; intros i; [reflexivity|].
  now rewrite Hg, IH.
Qed.

Lemma NoDup_map_injective {A B : Type} (f : A -> B) (l : list A) :
  (forall x y, f x = f y -> x = y) -> NoDup l -> NoDup (map f l).
Proof.
  intros Hf. induction 1 as [|x l Hx Hl IH]; simpl; constructor; [|exact IH].
  intros Hin. apply in_map_iff in Hin as [y [E Hy]].
  apply Hf in E. now subst.
Qed.

(** Every note's summary follows the rule of [generateSummary] on the
    note's own content. *)
Lemma createNotes_summary
    (jsonRow : jsstring -> option (option jsstring * jsstring))
    (world : World) (processedFile : ProcessedFile.t) (category : jsstring)
    (notes : list Note.t) (note : Note.t) :
  createNotesFromProcessedFile jsonRow world processedFile category = Ok notes ->
  In note notes ->
  Note.summary note
  = generateSummary (ProcessedFile.withContent processedFile (Note.content note)).
Proof.
  unfold createNotesFromProcessedFile. intros H Hin.
  destruct (extractNotesFromContent _ _ _) as [units|];
    cbv beta iota delta [bind] in H; [|discriminate].
  destruct units as [|u units'] eqn:Eu; cbv beta iota in H.
  - injection H as <-. easy.
  - rewrite <- Eu in H. injection H as <-.
    apply mapi_In in Hin as [k [x [_ ->]]]. reflexivity.
Qed.

(** C8. The summary of a note is the note's content itself when that has
    at most 200 characters, and otherwise the first 150 characters of the
    content, trimmed, followed by the ellipsis ["..."].  This holds of
    [generateSummary] on every content, and of the [summary] and [content]
    fields of every note that [createNotesFromProcessedFile] returns. *)
Theorem generateSummary_spec :
  (forall processedFile : ProcessedFile.t,
      generateSummary processedFile
      = if len (ProcessedFile.content processedFile) <=? 200
        then ProcessedFile.content processedFile
        else trim (substring (ProcessedFile.content processedFile) 0 150)
             ++ js "...")
  /\ (forall (jsonRow : jsstring -> option (option jsstring * jsstring))
             (world : World) (processedFile : ProcessedFile.t)
             (category : jsstring) (notes : list Note.t) (note : Note.t),
         createNotesFromProcessedFile jsonRow world processedFile category
         = Ok notes ->
         In note notes ->
         Note.summary note
         = if len (Note.content note) <=? 200 then Note.content note
           else trim (substring (Note.content note) 0 150) ++ js "...").
Proof.
  split.
  - intros processedFile. apply generateSummary_rule.
  - intros jsonRow world processedFile category notes note H Hin.
    unfold createNotesFromProcessedFile in H.
    destruct (extractNotesFromContent _ _ _) as [units|];
      cbv beta iota delta [bind] in H; [|discriminate].
    destruct units as [|u units'] eqn:Eu; cbv beta iota in H.
    + injection H as <-. easy.
    + rewrite <- Eu in H. injection H as <-.
      apply mapi_In in Hin as [k [x [_ ->]]].
      cbn [Note.summary Note.content].
      apply (generateSummary_rule
               (ProcessedFile.withContent processedFile (Seg.content x))).
Qed.

Lemma generateSummary_spec_witness :
  exists notes note,
    createNotesFromProcessedFile noJson frozenWorld notesFile (js "Uploads")
    = Ok notes
    /\ In note notes
    /\ Note.summary note
       = if len (Note.content note) <=? 200 then Note.content note
         else trim (substring (Note.content note) 0 150) ++ js "...".
Proof.
  eexists. eexists.
  split; [vm_compute; reflexivity|].
  split; [left; reflexivity|].
  eapply (proj2 generateSummary_spec noJson frozenWorld notesFile (js "Uploads")).
  - vm_compute. reflexivity.
  - left. reflexivity.
Defined.

(** C4. When the segmentation of a processed file yields [n] units,
    [createNotesFromProcessedFile] returns [n] notes, no two of them with
    the same id, each with the file's name as [sourceFile]. *)
Theorem createNotes_count_ids_source
    (jsonRow : jsstring -> option (option jsstring * jsstring))
    (world : World) (processedFile : ProcessedFile.t) (category : jsstring)
    (units : list Seg.t) :
  extractNotesFromContent jsonRow (ProcessedFile.content processedFile)
    (ProcessedFile.name processedFile) = Ok units ->
  exists notes,
    createNotesFromProcessedFile jsonRow world processedFile category = Ok notes
    /\ List.length notes = List.length units
    /\ NoDup (map Note.id notes)
    /\ Forall (fun note => Note.sourceFile note = ProcessedFile.name processedFile)
         notes.
Proof.
  intros H. unfold createNotesFromProcessedFile. rewrite H. simpl bind.
  destruct units as [|u units'] eqn:Eu.
  - exists []. repeat split; constructor.
  - rewrite <- Eu. eexists. split; [reflexivity|].
    split; [apply mapi_length|]. split.
    + erewrite mapi_map_seq with (h := noteId world) by reflexivity.
      apply NoDup_map_injective; [apply noteId_inj | apply seq_NoDup].
    + apply Forall_forall. intros note Hin.
      apply mapi_In in Hin as [k [x [_ ->]]]. reflexivity.
Qed.

Lemma createNotes_count_ids_source_witness :
  exists notes,
    createNotesFromProcessedFile noJson frozenWorld notesFile (js "Uploads")
    = Ok notes
    /\ List.length notes = List.length scenarioA_units
    /\ NoDup (map Note.id notes)
    /\ Forall (fun note => Note.sourceFile note = ProcessedFile.name notesFile)
         notes.
Proof.
  apply (createNotes_count_ids_source noJson frozenWorld notesFile
           (js "Uploads") scenarioA_units).
  vm_compute. reflexivity.
Defined.

(** C9. The notes made from one processed file all carry the same tags:
    the file's category, ["uploaded"], ["extracted"], the slug of its
    base name, and the smart tags of the file as a whole (its size and
    its full content), not of the unit the note holds. *)
Theorem createNotes_same_tags
    (jsonRow : jsstring -> option (option jsstring * jsstring))
    (world : World) (processedFile : ProcessedFile.t) (category : jsstring)
    (notes : list Note.t) :
  createNotesFromProcessedFile jsonRow world processedFile category = Ok notes ->
  (forall note, In note notes -> Note.tags note = fileTags processedFile)
  /\ (forall note1 note2,
         In note1 notes -> In note2 notes -> Note.tags note1 = Note.tags note2).
Proof.
  intros H.
  assert (forall note, In note notes -> Note.tags note = fileTags processedFile)
    as Htags.
  { unfold createNotesFromProcessedFile in H.
    destruct (extractNotesFromContent _ _ _) as [units|];
      cbv beta iota delta [bind] in H; [|discriminate].
    destruct units as [|u units'] eqn:Eu; cbv beta iota in H.
    - injection H as <-. easy.
    - rewrite <- Eu in H. injection H as <-.
      intros note Hin. apply mapi_In in Hin as [k [x [_ ->]]]. reflexivity. }
  split; [exact Htags|].
  intros note1 note2 H1 H2. now rewrite (Htags _ H1), (Htags _ H2).
Qed.

Lemma createNotes_same_tags_witness :
  exists notes,
    createNotesFromProcessedFile noJson frozenWorld notesFile (js "Uploads")
    = Ok notes
    /\ (forall note, In note notes -> Note.tags note = fileTags notesFile)
    /\ (forall note1 note2,
           In note1 notes -> In note2 notes -> Note.tags note1 = Note.tags note2).
Proof.
  eexists. split; [vm_compute; reflexivity|].
  apply (createNotes_same_tags noJson frozenWorld notesFile (js "Uploads")).
  vm_compute. reflexivity.
Defined.

(** ** Extractor dispatch *)

(** C5 (as amended). The duration the pipeline records for an audio file
    is its size divided by 16000, rounded down, and for a video file its
    size divided by 100000, rounded down, whatever the declared MIME
    type; nothing clamps it. *)
Theorem processFile_duration (P : Platform) (file : File.t) :
  let fileType := getFileType (getFileExtension (File.name file)) in
  (fileType = js "audio" ->
   recordedDuration (processFile P file) = Some (File.size file / 16000))
  /\ (fileType = js "video" ->
      recordedDuration (processFile P file) = Some (File.size file / 100000)).
Proof.
  intros fileType. unfold processFile. fold fileType.
  split; intros ->; reflexivity.
Qed.

Lemma processFile_duration_witness :
  recordedDuration (processFile undecodable songMp3) = Some (8000 / 16000)
  /\ recordedDuration (processFile undecodable clipWebm) = Some (100000 / 100000).
Proof.
  split.
  - apply (proj1 (processFile_duration undecodable songMp3)).
    vm_compute. reflexivity.
  - apply (proj2 (processFile_duration undecodable clipWebm)).
    vm_compute. reflexivity.
Defined.

(** C5, as stated, fails on an 8000-byte mp3: at 128 kbps it lasts half a
    second, which the clamp would raise to 1; the pipeline records 0. *)
Lemma songMp3_duration_zero :
  exists duration,
    recordedDuration (processFile undecodable songMp3) = Some duration
    /\ ~ (1 <= duration <= 7200).
Proof. exists 0. split; [vm_compute; reflexivity | lia]. Qed.

(** X27. The estimate of the speech service, which the pipeline does not call,
    is the one that stays between 1 and 7200 seconds. *)
Lemma estimateAudioDuration_range (size : Z) (format : jsstring) :
  QArith_base.Qle (QArith_base.inject_Z 1)
    (SpeechToText.estimateAudioDuration size format)
  /\ QArith_base.Qle (SpeechToText.estimateAudioDuration size format)
       (QArith_base.inject_Z 7200).
Proof.
  unfold SpeechToText.estimateAudioDuration. split.
  - apply Qminmax.Q.le_max_l.
  - apply Qminmax.Q.max_lub; [easy|]. apply Qminmax.Q.le_min_r.
Qed.

(** No rejection leaves [processFile]: what the [switch] rejects, the
    [catch] turns into a text. *)
Lemma processFile_never_rejects (P : Platform) (file : File.t) (e : jsError) :
  processFile P file <> Rejected e.
Proof.
  unfold processFile.
  destruct (dispatch P _ file _) as [[text metadata]|e'|]; simpl; discriminate.
Qed.

(** A rejection inside the [switch] comes out as the text
    ["Error processing file: "] followed by the error's message. *)
Lemma processFile_rejection_banner (P : Platform) (file : File.t) (e : jsError) :
  dispatch P (getFileType (getFileExtension (File.name file))) file
    (Metadata.mk (File.name file) (File.size file) (File.lastModified file)
       (File.type file) None None) = Rejected e ->
  exists processedFile,
    processFile P file = Resolved processedFile
    /\ ProcessedFile.content processedFile
       = js "Error processing file: " ++ messageOf e.
Proof.
  intros H. unfold processFile. rewrite H. simpl. eauto.
Qed.

(** Scenario D of the specification: a legacy [.doc] file is a
    ["document"] whose content is the fixed message, on every platform. *)
Example processFile_legacy_doc (P : Platform) :
  exists processedFile,
    processFile P reportDoc = Resolved processedFile
    /\ ProcessedFile.type processedFile = js "document"
    /\ ProcessedFile.content processedFile
       = js "Legacy .doc files are not supported. Please convert to .docx format.".
Proof. eexists. repeat split. Qed.

(** X17. The thumbnail of an image is awaited inside the [switch], and its
    promise is settled by [img.onload] alone: when the image does not
    decode, [processFile] is left waiting. *)
Lemma processFile_image_pending (P : Platform) (file : File.t) (url : jsstring) :
  getFileType (getFileExtension (File.name file)) = js "image" ->
  readAsDataURL P file = ReaderLoad url ->
  loadDataURL P url = ImageError ->
  processFile P file = Pending.
Proof.
  intros Htype Hread Hload. unfold processFile. rewrite Htype.
  unfold dispatch. simpl isCase. cbv iota.
  unfold processImageFile, analyzeImage, detectTextInImage,
    generateImageThumbnail.
  rewrite Hread, Hload.
  destruct (loadObjectURL P file) as [img|];
    [destruct (canvasStats P img) as [[[[? ?] ?] ?]|]|]; reflexivity.
Qed.

(** C3, at the failing input: for [scan.png], whose bytes do not decode
    as an image, [processFile] returns no [ProcessedFile] at all; its
    promise is never settled. *)
Theorem processFile_scanPng_pending :
  processFile undecodable scanPng = Pending.
Proof. vm_compute. reflexivity. Qed.

(** ** Classification *)

Lemma lastIndexFrom_cons (pat : jsstring) (x : N) (s : jsstring) (i : Z) :
  lastIndexFrom pat (x :: s) i
  = if 0 <=? lastIndexFrom pat s (i + 1) then lastIndexFrom pat s (i + 1)
    else if isPrefix pat (x :: s) then i else -1.
Proof. reflexivity. Qed.

Lemma isPrefix_single (c x : N) (s : jsstring) :
  isPrefix [c] (x :: s) = (c =? x)%N.
Proof. simpl. apply andb_true_r. Qed.

Lemma lastIndexFrom_absent (c : N) :
  forall s i, ~ In c s -> lastIndexFrom [c] s i = -1.
Proof.
  induction s as [|x s IH]; intros i Hin; [reflexivity|].
  rewrite lastIndexFrom_cons, isPrefix_single.
  rewrite IH by (intros H; apply Hin; now right).
  simpl. destruct (N.eqb_spec c x) as [->|_]; [|reflexivity].
  exfalso. apply Hin. now left.
Qed.

Lemma substringFrom_negative (s : jsstring) (i : Z) :
  i <= 0 -> substringFrom s i = s.
Proof.
  intros Hi. unfold substringFrom, substring, clamp, len.
  replace (Z.to_nat (Z.min (Z.max i 0) (Z.of_nat (List.length s)))) with O by lia.
  replace (Z.to_nat (Z.min (Z.max (Z.of_nat (List.length s)) 0)
                       (Z.of_nat (List.length s)))) with (List.length s) by lia.
  rewrite Nat.min_0_l, Nat.max_0_l, Nat.sub_0_r. simpl skipn.
  apply firstn_all.
Qed.

Lemma lowerUnit_dot (c : N) : In 46%N (lowerUnit c) -> c = 46%N.
Proof.
  unfold lowerUnit.
  repeat match goal with
         | |- context [if ?b then _ else _] => destruct b eqn:?
         end;
  rewrite ?andb_true_iff, ?orb_true_iff, ?negb_true_iff, ?N.leb_le, ?N.eqb_eq
    in *;
  repeat match goal with
         | G : _ \/ _ |- _ => destruct G as [G|G]
         end;
  rewrite ?andb_true_iff, ?N.leb_le in *;
  simpl; intros H; repeat destruct H as [H|H]; try easy; lia.
Qed.

Lemma toLowerCase_no_dot (s : jsstring) :
  ~ In 46%N s -> ~ In 46%N (toLowerCase s).
Proof.
  intros Hs H. apply in_flat_map in H as [c [Hc H]].
  apply lowerUnit_dot in H. now subst.
Qed.

Lemma lookupType_unlisted (table : list (jsstring * list jsstring))
    (extension : jsstring) :
  (forall type exts, In (type, exts) table -> ~ In extension exts) ->
  lookupType table extension = js "unknown".
Proof.
  induction table as [|[type exts] table IH]; intros H; [reflexivity|].
  simpl. destruct (existsb (str_eqb extension) exts) eqn:E.
  - apply existsb_exists in E as [x [Hx E]]. apply str_eqb_eq in E. subst x.
    exfalso. apply (H type exts); [now left | exact Hx].
  - apply IH. intros t e Hin. apply (H t e). now right.
Qed.

Lemma dotted_In (table : list (jsstring * list jsstring)) :
  dotted table = true ->
  forall type exts ext, In (type, exts) table -> In ext exts -> In 46%N ext.
Proof.
  unfold dotted. intros H type exts ext Hin Hext.
  rewrite forallb_forall in H. specialize (H _ Hin). simpl in H.
  rewrite forallb_forall in H. specialize (H _ Hext).
  destruct ext as [|c ext]; [discriminate|].
  apply N.eqb_eq in H. subst. now left.
Qed.

Lemma SUPPORTED_TYPES_dotted : dotted SUPPORTED_TYPES = true.
Proof. vm_compute. reflexivity. Qed.

(** X13. A name without a dot: the extension is the whole name in lower case,
    the table does not list it, and the type is ["unknown"]. *)
Lemma getFileType_no_dot (filename : jsstring) :
  ~ In 46%N filename ->
  getFileExtension filename = toLowerCase filename
  /\ (forall type exts,
         In (type, exts) SUPPORTED_TYPES ->
         ~ In (getFileExtension filename) exts)
  /\ getFileType (getFileExtension filename) = js "unknown".
Proof.
  intros Hdot.
  assert (getFileExtension filename = toLowerCase filename) as E.
  { unfold getFileExtension, lastIndexOf.
    change (js ".") with [46%N].
    rewrite lastIndexFrom_absent by exact Hdot.
    apply substringFrom_negative. lia. }
  assert (forall type exts,
             In (type, exts) SUPPORTED_TYPES ->
             ~ In (getFileExtension filename) exts) as Hnone.
  { intros type exts Hin Hext. rewrite E in Hext.
    apply (toLowerCase_no_dot filename Hdot).
    exact (dotted_In SUPPORTED_TYPES SUPPORTED_TYPES_dotted type exts _ Hin Hext). }
  repeat split; [exact E | exact Hnone |].
  now apply lookupType_unlisted.
Qed.

Lemma sameUpToCase_lower (a b : jsstring) :
  sameUpToCase a b -> toLowerCase a = toLowerCase b.
Proof.
  induction 1 as [|x y a b Hxy _ IH]; [reflexivity|].
  simpl. now rewrite Hxy, IH.
Qed.

Lemma sameUpToCase_lastIndex (a b : jsstring) :
  sameUpToCase a b ->
  forall i, lastIndexFrom [46%N] a i = lastIndexFrom [46%N] b i.
Proof.
  induction 1 as [|x y a b Hxy _ IH]; intros i; [reflexivity|].
  rewrite !lastIndexFrom_cons, !isPrefix_single, IH.
  assert ((46 =? x)%N = (46 =? y)%N) as ->; [|reflexivity].
  destruct (N.eqb_spec 46 x) as [<-|Hx], (N.eqb_spec 46 y) as [<-|Hy];
    try reflexivity; exfalso.
  - apply Hy. symmetry. apply lowerUnit_dot. rewrite <- Hxy. now left.
  - apply Hx. symmetry. apply lowerUnit_dot. rewrite Hxy. now left.
Qed.

(** Two names of the same length that agree, position by position, up to
    the case of their letters have the same extension and the same
    type. *)
Lemma getFileType_same_up_to_case (a b : jsstring) :
  sameUpToCase a b ->
  getFileType (getFileExtension a) = getFileType (getFileExtension b).
Proof.
  intros H. unfold getFileExtension, lastIndexOf.
  change (js ".") with [46%N].
  now rewrite (sameUpToCase_lower _ _ H), (sameUpToCase_lastIndex _ _ H).
Qed.

(** C10, at the failing input: [Istanbul.pdf] written with a capital I
    with dot above has the lower-cased extension [.pdf], yet its type is
    ["unknown"]: the name in lower case is one code unit longer, the cut
    is made at the dot's index in the original name and lands on
    ["l.pdf"].  The same name in lower case is a ["document"]. *)
Theorem getFileType_istanbul :
  toLowerCase istanbulPdf = istanbulPdf_lower
  /\ getFileExtension istanbulPdf = js "l.pdf"
  /\ getFileType (getFileExtension istanbulPdf) = js "unknown"
  /\ getFileExtension istanbulPdf_lower = js ".pdf"
  /\ getFileType (getFileExtension istanbulPdf_lower) = js "document".
Proof. vm_compute. repeat split. Qed.

(** * Further properties *)

Import SpeechAnalysis Dashboard Terms.

(** ** Trimming *)

Lemma dropWhile_head (p : N -> bool) (s : jsstring) (c : N) (r : jsstring) :
  dropWhile p s = c :: r -> p c = false.
Proof.
  induction s as [|x s IH]; simpl; [discriminate|].
  destruct (p x) eqn:E; [exact IH|]. intros [= <- _]. exact E.
Qed.

Lemma dropWhile_fixed (p : N -> bool) (s : jsstring) :
  match s with [] => True | c :: _ => p c = false end -> dropWhile p s = s.
Proof. destruct s as [|c s]; simpl; [reflexivity|]. now intros ->. Qed.

Lemma dropWhile_suffix (p : N -> bool) (s : jsstring) :
  exists a, s = a ++ dropWhile p s.
Proof.
  induction s as [|x s [a IH]]; simpl; [now exists []|].
  destruct (p x); [|now exists []].
  exists (x :: a). simpl. now f_equal.
Qed.

Lemma trimEnd_prefix (t : jsstring) : exists w, t = trimEnd t ++ w.
Proof.
  unfold trimEnd. destruct (dropWhile_suffix isSpace (rev t)) as [a E].
  exists (rev a). rewrite <- rev_app_distr, <- E. now rewrite rev_involutive.
Qed.

(** A trimmed string starts with a character that is not white space. *)
Lemma trim_head (s : jsstring) (c : N) (r : jsstring) :
  trim s = c :: r -> isSpace c = false.
Proof.
  unfold trim. intros E.
  destruct (trimEnd_prefix (trimStart s)) as [w Hw].
  rewrite E in Hw. simpl in Hw.
  now apply (dropWhile_head isSpace s c (r ++ w)).
Qed.

Lemma trim_idempotent (s : jsstring) : trimmed (trim s).
Proof.
  unfold trimmed.
  assert (trimStart (trim s) = trim s) as Hstart.
  { apply dropWhile_fixed. destruct (trim s) as [|c r] eqn:E; [exact I|].
    now apply trim_head in E. }
  unfold trim at 1. rewrite Hstart.
  unfold trim, trimEnd. rewrite rev_involutive. f_equal.
  apply dropWhile_fixed.
  destruct (dropWhile isSpace (rev (trimStart s))) as [|c r] eqn:E; [exact I|].
  now apply dropWhile_head in E.
Qed.

Lemma dropWhile_In (p : N -> bool) (s : jsstring) (c : N) :
  In c (dropWhile p s) -> In c s.
Proof.
  destruct (dropWhile_suffix p s) as [a E]. intros H.
  rewrite E. apply in_or_app. now right.
Qed.

Lemma trim_In (s : jsstring) (c : N) : In c (trim s) -> In c s.
Proof.
  unfold trim, trimEnd, trimStart. intros H.
  apply in_rev, dropWhile_In, in_rev in H. now apply dropWhile_In in H.
Qed.

Lemma firstLine_nonempty (s : jsstring) (c : N) (r : jsstring) :
  s = c :: r -> isSpace c = false -> firstLine s <> [].
Proof.
  intros -> Hc. unfold firstLine. simpl.
  destruct (N.eqb_spec c 10) as [->|_]; [discriminate Hc|].
  destruct (split_char 10 r); discriminate.
Qed.

Lemma truncTitle_length (line : jsstring) : len (truncTitle line) <= 53.
Proof.
  unfold truncTitle. destruct (50 <? len line) eqn:E.
  - pose proof (substring_0_length line 50 ltac:(lia)) as H.
    unfold len in *. rewrite length_app. simpl List.length. lia.
  - apply Z.ltb_ge in E. lia.
Qed.

Lemma truncTitle_nonempty (line : jsstring) : line <> [] -> truncTitle line <> [].
Proof.
  unfold truncTitle. intros H. destruct (50 <? len line); [|exact H].
  intros E. apply app_eq_nil in E as [_ E]. discriminate E.
Qed.

(** The title taken from a trimmed, non-empty content. *)
Lemma title_of_trimmed (section : jsstring) :
  0 < len (trim section) ->
  truncTitle (firstLine (trim section)) <> [].
Proof.
  intros H. apply truncTitle_nonempty.
  destruct (trim section) as [|c r] eqn:E; [unfold len in H; simpl in H; lia|].
  eapply firstLine_nonempty; [reflexivity|]. now apply trim_head in E.
Qed.

(** ** Units of the structural strategies *)

Lemma sectionNotes_units (label : jsstring) :
  forall sections i,
    Forall (fun u => 20 < len (Seg.content u) /\ trimmed (Seg.content u)
                     /\ wellTitled u)
      (sectionNotes label sections i).
Proof.
  induction sections as [|section rest IH]; intros i; simpl; [constructor|].
  destruct (20 <? len (trim section)) eqn:L; [|apply IH].
  apply Z.ltb_lt in L. constructor; [|apply IH]. simpl.
  pose proof (title_of_trimmed section ltac:(lia)) as Ht.
  assert (orElse (truncTitle (firstLine (trim section))) (label ++ ofNat i)
          = truncTitle (firstLine (trim section))) as ->
    by (destruct (truncTitle (firstLine (trim section))); [congruence | reflexivity]).
  unfold wellTitled. simpl.
  repeat split; auto using trim_idempotent, truncTitle_length.
Qed.

Lemma paragraphNotes_units (fileName : jsstring) :
  forall paragraphs index,
    Forall (fun p => 50 < len (trim p)) paragraphs ->
    Forall (fun u => 50 < len (Seg.content u) /\ trimmed (Seg.content u)
                     /\ wellTitled u)
      (paragraphNotes fileName paragraphs index).
Proof.
  induction paragraphs as [|p rest IH]; intros index Hall; simpl; [constructor|].
  inversion Hall as [|? ? Hp Hrest]; subst.
  constructor; [|now apply IH]. simpl.
  pose proof (title_of_trimmed p ltac:(lia)) as Ht.
  match goal with
  | |- context [orElse ?t ?f] =>
      assert (orElse t f = t) as -> by (destruct t; [congruence | reflexivity])
  end.
  unfold wellTitled. simpl.
  repeat split; auto using trim_idempotent, truncTitle_length.
Qed.

Lemma paragraphNotes_length (fileName : jsstring) :
  forall paragraphs index,
    List.length (paragraphNotes fileName paragraphs index) = List.length paragraphs.
Proof. induction paragraphs; simpl; intros; [reflexivity | now rewrite IHparagraphs]. Qed.

Lemma headerUnits_units :
  forall headerMatches sections,
    Forall (fun u => 10 < len (Seg.content u) /\ trimmed (Seg.content u))
      (headerUnits headerMatches sections).
Proof.
  induction headerMatches as [|h hs IH]; intros [|section rest]; simpl;
    try constructor.
  destruct (10 <? len (trim section)) eqn:L; [|apply IH].
  apply Z.ltb_lt in L. constructor; [|apply IH]. simpl.
  split; [exact L | apply trim_idempotent].
Qed.

Lemma filter_long (n : Z) (l : list jsstring) :
  Forall (fun p => n < len (trim p)) (filter (fun p => n <? len (trim p)) l).
Proof.
  apply Forall_forall. intros p Hp. apply filter_In in Hp as [_ Hp].
  now apply Z.ltb_lt.
Qed.

(** X1. Whenever one of the four structural strategies is selected and
    returns, every unit's content is longer than 10 characters and has no
    white space at either end. *)
Theorem structural_units_trimmed
    (jsonRow : jsstring -> option (option jsstring * jsstring))
    (content fileName : jsstring) (notes : list Seg.t) :
  structural content = true ->
  extractNotesFromContent jsonRow content fileName = Ok notes ->
  Forall (fun u => 10 < len (Seg.content u) /\ trimmed (Seg.content u)) notes.
Proof.
  unfold structural, extractNotesFromContent. intros Hs H.
  destruct (1 <? List.length (matchAll headerRe content))%nat.
  { apply headerNotes_units in H. subst. apply headerUnits_units. }
  destruct (2 <? List.length (split numberedRe content))%nat.
  { injection H as <-. eapply Forall_impl; [|apply sectionNotes_units].
    simpl. intros u (? & ? & _). split; [lia | assumption]. }
  destruct (1 <? List.length (filter _ (split paragraphRe content)))%nat.
  { injection H as <-.
    eapply Forall_impl; [|apply paragraphNotes_units, filter_long].
    simpl. intros u (? & ? & _). split; [lia | assumption]. }
  destruct (2 <? List.length (split bulletRe content))%nat; [|discriminate Hs].
  injection H as <-. eapply Forall_impl; [|apply sectionNotes_units].
  simpl. intros u (? & ? & _). split; [lia | assumption].
Qed.

Lemma structural_units_trimmed_witness :
  Forall (fun u => 10 < len (Seg.content u) /\ trimmed (Seg.content u))
    scenarioA_units.
Proof.
  apply (structural_units_trimmed noJson scenarioA (js "notes.md")).
  - vm_compute. reflexivity.
  - vm_compute. reflexivity.
Defined.



(** ** When segmentation throws *)

Lemma headerNotes_throws (headerMatches : list jsstring) :
  forall sections j,
    (j <= List.length headerMatches)%nat ->
    (List.length headerMatches < List.length sections + j)%nat ->
    headerNotes headerMatches sections (S j) = Throw TypeError.
Proof.
  induction sections as [|section rest IH]; intros j Hj Hlen; simpl in Hlen;
    [lia|].
  simpl headerNotes. rewrite Nat.sub_0_r.
  destruct (nth_error headerMatches j) as [h|] eqn:E; [|reflexivity].
  assert (j < List.length headerMatches)%nat
    by (apply nth_error_Some; congruence).
  rewrite IH by lia. reflexivity.
Qed.

(** X3. Segmentation throws, and with it [createNotesFromProcessedFile],
    exactly when the markdown-header strategy is selected on a text in
    which the heading markers cut more sections than there are heading
    matches: the loop then reads [headerMatches] past its end. *)
Theorem segmentation_throws_iff
    (jsonRow : jsstring -> option (option jsstring * jsstring))
    (world : World) (processedFile : ProcessedFile.t) (category : jsstring) :
  let content := ProcessedFile.content processedFile in
  let headerMatches := matchAll headerRe content in
  let sections := tl (split headerMarkRe content) in
  ((1 < List.length headerMatches)%nat
   /\ (List.length headerMatches < List.length sections)%nat
   <-> extractNotesFromContent jsonRow content (ProcessedFile.name processedFile)
       = Throw TypeError)
  /\ (extractNotesFromContent jsonRow content (ProcessedFile.name processedFile)
      = Throw TypeError
      <-> createNotesFromProcessedFile jsonRow world processedFile category
          = Throw TypeError).
Proof.
  intros content headerMatches sections. split.
  - unfold extractNotesFromContent. fold content. fold headerMatches.
    destruct (1 <? List.length headerMatches)%nat eqn:Eh.
    + apply Nat.ltb_lt in Eh. fold sections. split.
      * intros [_ Hlen]. apply headerNotes_throws; lia.
      * intros H. split; [exact Eh|].
        destruct (Nat.le_gt_cases (List.length sections)
                    (List.length headerMatches)) as [Hle|Hgt]; [|exact Hgt].
        rewrite (headerNotes_returns headerMatches sections 0) in H by lia.
        discriminate H.
    + apply Nat.ltb_ge in Eh. split; [lia|].
      repeat match goal with
             | |- context [if ?b then _ else _] => destruct b
             end; discriminate.
  - unfold createNotesFromProcessedFile. fold content.
    destruct (extractNotesFromContent jsonRow content _) as [units|[]];
      cbv beta iota delta [bind].
    + split; [discriminate|]. destruct units; discriminate.
    + tauto.
Qed.

Lemma segmentation_throws_iff_witness :
  extractNotesFromContent noJson loneMarker (js "notes.md") = Throw TypeError.
Proof.
  apply (proj1 (segmentation_throws_iff noJson frozenWorld
                  (ProcessedFile.mk (js "notes.md") (js "text") 13 loneMarker
                     (Some loneMarker) None) (js "Uploads"))).
  vm_compute. lia.
Defined.

(** ** Chunking *)

Lemma chunksFrom_partition (chunkSize : nat) :
  (0 < chunkSize)%nat ->
  forall fuel s,
    (List.length s <= fuel)%nat ->
    List.concat (chunksFrom fuel chunkSize s) = s
    /\ Forall (fun c => (List.length c <= chunkSize)%nat)
         (chunksFrom fuel chunkSize s)
    /\ (List.length s <= List.length (chunksFrom fuel chunkSize s) * chunkSize)%nat
    /\ (List.length (chunksFrom fuel chunkSize s) * chunkSize
        < List.length s + chunkSize)%nat.
Proof.
  intros Hsize. induction fuel as [|fuel IH]; intros s Hlen.
  - destruct s; [|simpl in Hlen; lia].
    simpl. repeat split; [constructor | lia | lia].
  - destruct s as [|c s'] eqn:Es.
    + simpl. repeat split; [constructor | lia | lia].
    + rewrite <- Es in *.
      assert (chunksFrom (S fuel) chunkSize s
              = firstn chunkSize s :: chunksFrom fuel chunkSize (skipn chunkSize s))
        as -> by (rewrite Es; reflexivity).
      assert (0 < List.length s)%nat as Hpos by (rewrite Es; simpl; lia).
      destruct (IH (skipn chunkSize s)) as (Hc & Hall & Hlo & Hhi).
      { rewrite length_skipn. lia. }
      rewrite length_skipn in Hlo, Hhi.
      rewrite concat_cons, Hc, firstn_skipn, length_cons, Nat.mul_succ_l.
      unfold jsstring in *.
      repeat split.
      * constructor; [|exact Hall]. rewrite length_firstn. lia.
      * lia.
      * destruct (Nat.le_gt_cases chunkSize (List.length s)) as [Hle|Hgt];
          [lia|].
        rewrite skipn_all2 by lia.
        destruct fuel; simpl; lia.
Qed.

Lemma chunkNotes_contents (fileName : jsstring) :
  forall chunks index,
    map Seg.content (chunkNotes fileName chunks index) = map trim chunks.
Proof.
  induction chunks as [|chunk rest IH]; intros index; simpl;
    [reflexivity | now rewrite IH].
Qed.

(** X4. When a long text reaches the fixed-size chunking, the chunks cut
    it into consecutive pieces of at most 800 characters that, put end to
    end, give the text back; there is one unit per chunk, that is the
    length divided by 800 and rounded up, and each unit's content is its
    chunk trimmed. *)
Theorem chunking_partitions
    (jsonRow : jsstring -> option (option jsstring * jsstring))
    (content fileName : jsstring) :
  chunked content = true ->
  exists notes chunks,
    extractNotesFromContent jsonRow content fileName = Ok notes
    /\ List.concat chunks = content
    /\ Forall (fun c => len c <= 800) chunks
    /\ map Seg.content notes = map trim chunks
    /\ len content <= 800 * Z.of_nat (List.length notes) < len content + 800.
Proof.
  unfold chunked, structural. intros H.
  apply andb_prop in H as [H Hlong]. apply andb_prop in H as [Hs Hrow].
  apply negb_true_iff in Hs, Hrow.
  repeat (apply orb_false_iff in Hs as [Hs ?]).
  unfold extractNotesFromContent.
  repeat match goal with
         | E : ?b = false |- context [if ?b then _ else _] => rewrite E
         end.
  rewrite Hlong.
  destruct (chunksFrom_partition 800 (Nat.lt_0_succ 799) (List.length content)
              content (Nat.le_refl _)) as (Hc & Hall & Hlo & Hhi).
  fold (chunksOf 800 content) in Hc, Hall, Hlo, Hhi.
  exists (chunkNotes fileName (chunksOf 800 content) 0), (chunksOf 800 content).
  repeat split.
  - exact Hc.
  - eapply Forall_impl; [|exact Hall]. intros c Hcl. cbv beta in Hcl.
    unfold len. lia.
  - apply chunkNotes_contents.
  - rewrite <- (length_map Seg.content), chunkNotes_contents, length_map.
    unfold len, jsstring in *. lia.
  - rewrite <- (length_map Seg.content), chunkNotes_contents, length_map.
    unfold len, jsstring in *. lia.
Qed.

Lemma chunking_partitions_witness :
  exists notes chunks,
    extractNotesFromContent noJson (repeat 97%N 2500) (js "long.txt") = Ok notes
    /\ List.concat chunks = repeat 97%N 2500
    /\ Forall (fun c => len c <= 800) chunks
    /\ map Seg.content notes = map trim chunks
    /\ len (repeat 97%N 2500) <= 800 * Z.of_nat (List.length notes)
       < len (repeat 97%N 2500) + 800.
Proof.
  apply (chunking_partitions noJson (repeat 97%N 2500) (js "long.txt")).
  vm_compute. reflexivity.
Defined.

(** ** Summaries and tags *)

(** X7. A summary is never longer than 200 characters, and summarising a
    summary gives it back unchanged. *)
Theorem generateSummary_bounded (processedFile : ProcessedFile.t) :
  len (generateSummary processedFile) <= 200
  /\ generateSummary
       (ProcessedFile.withContent processedFile (generateSummary processedFile))
     = generateSummary processedFile.
Proof.
  assert (len (generateSummary processedFile) <= 200) as Hb.
  { unfold generateSummary.
    destruct (len (ProcessedFile.content processedFile) <=? 200) eqn:E;
      [now apply Z.leb_le|].
    pose proof (trim_length (substring (ProcessedFile.content processedFile) 0 150)).
    pose proof (substring_0_length (ProcessedFile.content processedFile) 150
                  ltac:(lia)).
    unfold len in *. rewrite length_app.
    destruct (_ <? _); simpl List.length; lia. }
  split; [exact Hb|].
  unfold generateSummary at 1. cbn [ProcessedFile.withContent ProcessedFile.content].
  apply Z.leb_le in Hb. now rewrite Hb.
Qed.

Lemma sublist_refl {A : Type} (l : list A) : sublist l l.
Proof. induction l; constructor; assumption. Qed.

Lemma sublist_In {A : Type} (l l' : list A) (x : A) :
  sublist l l' -> In x l -> In x l'.
Proof.
  induction 1 as [|y l l' _ IH|y l l' _ IH]; simpl; intros H; [easy | auto |].
  destruct H; auto.
Qed.

Lemma sublist_NoDup {A : Type} (l l' : list A) :
  sublist l l' -> NoDup l' -> NoDup l.
Proof.
  induction 1 as [|y l l' Hs IH|y l l' Hs IH]; intros Hnd.
  - constructor.
  - inversion Hnd; auto.
  - inversion Hnd as [|? ? Hy Hl']; subst. constructor; [|auto].
    intros Hin. apply Hy. eapply sublist_In; eauto.
Qed.

Lemma smartTags_NoDup : NoDup smartTags.
Proof. apply distinct_NoDup. vm_compute. reflexivity. Qed.

(** X8. The smart tags of a file are some of the seven fixed tags, in
    their fixed order and without repetition, and a file is never tagged
    both ["large-file"] and ["small-file"]. *)
Theorem generateSmartTags_wellformed (processedFile : ProcessedFile.t) :
  sublist (generateSmartTags processedFile) smartTags
  /\ NoDup (generateSmartTags processedFile)
  /\ ~ (In (js "large-file") (generateSmartTags processedFile)
        /\ In (js "small-file") (generateSmartTags processedFile)).
Proof.
  assert (sublist (generateSmartTags processedFile) smartTags) as Hsub.
  { unfold generateSmartTags, smartTags. cbv zeta beta.
    repeat match goal with
           | |- context [if ?b then _ else _] => destruct b
           end;
    cbn [app map]; repeat (first [apply sublist_keep | apply sublist_skip]);
    apply sublist_nil. }
  split; [exact Hsub|]. split; [eapply sublist_NoDup; eauto using smartTags_NoDup|].
  unfold generateSmartTags. cbv zeta beta.
  destruct (10 * 1024 * 1024 <? ProcessedFile.size processedFile) eqn:Elarge;
    destruct (ProcessedFile.size processedFile <? 1024) eqn:Esmall.
  - apply Z.ltb_lt in Elarge, Esmall. lia.
  - intros [_ H].
    repeat match goal with
           | H : context [if ?b then _ else _] |- _ => destruct b
           end;
    cbn [app In] in H; repeat destruct H as [H|H]; try discriminate H; easy.
  - intros [H _].
    repeat match goal with
           | H : context [if ?b then _ else _] |- _ => destruct b
           end;
    cbn [app In] in H; repeat destruct H as [H|H]; try discriminate H; easy.
  - intros [H _].
    repeat match goal with
           | H : context [if ?b then _ else _] |- _ => destruct b
           end;
    cbn [app In] in H; repeat destruct H as [H|H]; try discriminate H; easy.
Qed.

(** ** Units into notes *)

Lemma mapi_map {A B C : Type} (f : nat -> A -> B) (g : B -> C) (h : A -> C)
    (l : list A) :
  (forall k x, g (f k x) = h x) ->
  forall i, map g (mapi f l i) = map h l.
Proof.
  intros Hg. induction l as [|x l IH]; simpl; intros i; [reflexivity|].
  now rewrite Hg, IH.
Qed.

(** X9. The notes of a processed file carry its units one for one and in
    order: the k-th note has the title and the content of the k-th unit,
    and its type is one of the five note types whenever the file's
    category came out of the classifier. *)
Theorem createNotes_carries_units
    (jsonRow : jsstring -> option (option jsstring * jsstring))
    (world : World) (processedFile : ProcessedFile.t) (category : jsstring)
    (units : list Seg.t) :
  extractNotesFromContent jsonRow (ProcessedFile.content processedFile)
    (ProcessedFile.name processedFile) = Ok units ->
  exists notes,
    createNotesFromProcessedFile jsonRow world processedFile category = Ok notes
    /\ map (fun note => Seg.mk (Note.title note) (Note.content note)) notes = units
    /\ Forall (fun note => Note.category note = category
                           /\ Note.isStarred note = false
                           /\ Note.createdAt note = Note.updatedAt note) notes
    /\ ((exists extension, ProcessedFile.type processedFile = getFileType extension) ->
        Forall (fun note => In (Note.type note) noteTypes) notes).
Proof.
  intros H. unfold createNotesFromProcessedFile. rewrite H. simpl bind.
  destruct units as [|u units'] eqn:Eu.
  - exists []. repeat split; constructor.
  - rewrite <- Eu. eexists. split; [reflexivity|]. split; [|split].
    + erewrite mapi_map with (h := fun u => u); [apply map_id|].
      intros k [t c]. reflexivity.
    + apply Forall_forall. intros note Hin.
      apply mapi_In in Hin as [k [x [_ ->]]]. repeat split.
    + intros [extension Hext]. apply Forall_forall. intros note Hin.
      apply mapi_In in Hin as [k [x [_ ->]]].
      cbn [Note.type]. rewrite Hext. clear.
      unfold getFileType, SUPPORTED_TYPES, lookupType.
      repeat match goal with
             | |- context [if ?b then _ else _] => destruct b
             end; vm_compute; tauto.
Qed.

Lemma createNotes_carries_units_witness :
  exists notes,
    createNotesFromProcessedFile noJson frozenWorld notesFile (js "Uploads")
    = Ok notes
    /\ map (fun note => Seg.mk (Note.title note) (Note.content note)) notes
       = scenarioA_units
    /\ Forall (fun note => Note.category note = js "Uploads"
                           /\ Note.isStarred note = false
                           /\ Note.createdAt note = Note.updatedAt note) notes
    /\ ((exists extension, ProcessedFile.type notesFile = getFileType extension) ->
        Forall (fun note => In (Note.type note) noteTypes) notes).
Proof.
  apply (createNotes_carries_units noJson frozenWorld notesFile (js "Uploads")
           scenarioA_units).
  vm_compute. reflexivity.
Defined.

(** ** The slug *)

Lemma rep_always (cls : N -> bool) (k : option N -> jsstring -> option nat) :
  (forall prev s, k prev s = Some O) ->
  forall s prev, exists m,
    rep k cls 0 None prev s = Some m /\ (m <= List.length s)%nat.
Proof.
  intros Hk. induction s as [|c s IH]; intros prev; simpl.
  - exists O. split; [apply Hk | lia].
  - destruct (cls c); simpl.
    + destruct (IH (Some c)) as [m [-> Hm]]. exists (S m). split; [reflexivity | lia].
    + exists O. split; [apply Hk | lia].
Qed.

(** [cls+] matches at the head of a string exactly when the string starts
    with a character of the class, and then it is not empty. *)
Lemma matchHere_plus (cls : N -> bool) (prev : option N) (s : jsstring) :
  match s with
  | c :: _ =>
      if cls c
      then exists k, matchHere [plus cls] prev s = Some (S k)
                     /\ (S k <= List.length s)%nat
      else matchHere [plus cls] prev s = None
  | [] => matchHere [plus cls] prev s = None
  end.
Proof.
  destruct s as [|c s]; [reflexivity|].
  change (matchHere [plus cls] prev (c :: s))
    with (if cls c && true
          then match rep (matchHere []) cls 0 None (Some c) s with
               | Some n => Some (S n)
               | None => None
               end
          else None).
  destruct (cls c) eqn:E; simpl andb; cbv iota; [|reflexivity].
  destruct (rep_always cls (matchHere []) (fun _ _ => eq_refl) s (Some c))
    as [k [-> Hk]].
  exists k. split; [reflexivity | simpl; lia].
Qed.

Lemma search_plus (cls : N -> bool) :
  forall s prev,
    match search [plus cls] prev s with
    | Some (i, n) =>
        Forall (fun c => cls c = false) (firstn i s)
        /\ (0 < n)%nat /\ (i + n <= List.length s)%nat
    | None => Forall (fun c => cls c = false) s
    end.
Proof.
  induction s as [|c s IH]; intros prev.
  - simpl. constructor.
  - pose proof (matchHere_plus cls prev (c :: s)) as Hm. cbv beta iota in Hm.
    destruct (cls c) eqn:E.
    + destruct Hm as [k [Hm Hk]].
      rewrite (search_here _ _ _ _ Hm). simpl firstn.
      repeat split; [constructor | lia | simpl in *; lia].
    + rewrite (search_next _ _ _ _ Hm).
      specialize (IH (Some c)).
      destruct (search [plus cls] (Some c) s) as [[i n]|].
      * destruct IH as (Hf & Hn & Hlen). simpl firstn.
        repeat split; [constructor; assumption | lia | simpl; lia].
      * constructor; assumption.
Qed.

Lemma replaceAllFrom_plus (cls : N -> bool) (by_ : jsstring) :
  Forall (fun c => cls c = false) by_ ->
  forall fuel prev s,
    (List.length s < fuel)%nat ->
    Forall (fun c => cls c = false) (replaceAllFrom fuel [plus cls] prev s by_).
Proof.
  intros Hby. induction fuel as [|fuel IH]; intros prev s Hlen; [lia|].
  simpl. pose proof (search_plus cls s prev) as Hs.
  destruct (search [plus cls] prev s) as [[i n]|]; [|exact Hs].
  destruct Hs as (Hf & Hn & Hbound).
  destruct n as [|n]; [lia|].
  assert ((List.length s <? i + S n)%nat = false) as ->
    by (apply Nat.ltb_ge; lia).
  rewrite Nat.sub_diag. simpl firstn. simpl app.
  repeat (apply Forall_app; split); try assumption.
  apply IH. rewrite length_skipn. lia.
Qed.

(** X10. The fourth tag of every note, the slug of the file's base name,
    contains no white space: every run of it in the lower-cased name has
    become one hyphen. *)
Theorem createNotes_slug_no_space
    (jsonRow : jsstring -> option (option jsstring * jsstring))
    (world : World) (processedFile : ProcessedFile.t) (category : jsstring)
    (notes : list Note.t) (note : Note.t) :
  createNotesFromProcessedFile jsonRow world processedFile category = Ok notes ->
  In note notes ->
  exists slug,
    nth_error (Note.tags note) 3 = Some slug
    /\ Forall (fun c => isSpace c = false) slug.
Proof.
  unfold createNotesFromProcessedFile. intros H Hin.
  destruct (extractNotesFromContent _ _ _) as [units|];
    cbv beta iota delta [bind] in H; [|discriminate].
  destruct units as [|u units'] eqn:Eu; cbv beta iota in H.
  - injection H as <-. easy.
  - rewrite <- Eu in H. injection H as <-.
    apply mapi_In in Hin as [k [x [_ ->]]].
    eexists. split; [reflexivity|].
    apply replaceAllFrom_plus; [repeat constructor | lia].
Qed.

Lemma createNotes_slug_no_space_witness :
  exists note slug,
    nth_error (Note.tags note) 3 = Some slug
    /\ Forall (fun c => isSpace c = false) slug.
Proof.
  assert (exists note notes,
             createNotesFromProcessedFile noJson frozenWorld notesFile
               (js "Uploads") = Ok (note :: notes)) as [note [notes E]]
    by (vm_compute; eauto).
  exists note.
  apply (createNotes_slug_no_space noJson frozenWorld notesFile (js "Uploads")
           (note :: notes) note E).
  now left.
Defined.

(** ** The classifier *)

Lemma getFileType_no_dot_witness :
  getFileExtension (js "Makefile") = toLowerCase (js "Makefile")
  /\ (forall type exts,
         In (type, exts) SUPPORTED_TYPES ->
         ~ In (getFileExtension (js "Makefile")) exts)
  /\ getFileType (getFileExtension (js "Makefile")) = js "unknown".
Proof.
  apply (getFileType_no_dot (js "Makefile")).
  vm_compute. intuition discriminate.
Defined.

(** X14. Two names of the same length, made of code units up to U+017F,
    that agree position by position up to the case of their letters have
    the same type. *)
Theorem getFileType_latin_case (a b : jsstring) :
  Forall latin a -> Forall latin b ->
  sameUpToCase a b ->
  getFileType (getFileExtension a) = getFileType (getFileExtension b).
Proof.
  intros _ _ H. unfold getFileExtension, lastIndexOf.
  change (js ".") with [46%N].
  now rewrite (sameUpToCase_lower _ _ H), (sameUpToCase_lastIndex _ _ H).
Qed.

Lemma getFileType_latin_case_witness :
  getFileType (getFileExtension (js "README.TXT"))
  = getFileType (getFileExtension (js "readme.txt")).
Proof.
  apply (getFileType_latin_case (js "README.TXT") (js "readme.txt")).
  - repeat constructor; vm_compute; discriminate.
  - repeat constructor; vm_compute; discriminate.
  - repeat constructor.
Defined.

Lemma lookupType_listed (table : list (jsstring * list jsstring)) :
  NoDup (flat_map snd table) ->
  forall type exts extension,
    In (type, exts) table -> In extension exts ->
    lookupType table extension = type.
Proof.
  induction table as [|[t0 e0] table IH]; intros Hnd type exts extension Hin Hext;
    [easy|].
  simpl. destruct (existsb (str_eqb extension) e0) eqn:E.
  - apply existsb_exists in E as [x [Hx E]]. apply str_eqb_eq in E. subst x.
    assert ((t0, e0) = (type, exts)) as Heq; [|now injection Heq].
    eapply (table_unique_entry _ Hnd); eauto; now left.
  - destruct Hin as [[= -> ->]|Hin].
    + assert (existsb (str_eqb extension) exts = true) as E'
        by (apply existsb_exists; exists extension; split;
            [exact Hext | apply str_eqb_refl]).
      congruence.
    + simpl in Hnd. apply NoDup_app_right in Hnd. eapply IH; eauto.
Qed.

Lemma lookupType_found (table : list (jsstring * list jsstring))
    (extension : jsstring) :
  lookupType table extension = js "unknown"
  \/ exists exts, In (lookupType table extension, exts) table /\ In extension exts.
Proof.
  induction table as [|[t0 e0] table IH]; [now left|].
  simpl. destruct (existsb (str_eqb extension) e0) eqn:E.
  - right. apply existsb_exists in E as [x [Hx E]]. apply str_eqb_eq in E.
    subst x. exists e0. split; [now left | exact Hx].
  - destruct IH as [IH|[exts [Hin Hext]]]; [now left|].
    right. exists exts. split; [now right | exact Hext].
Qed.

Lemma NoDup_keys_same_entry {A B : Type} (table : list (A * B)) :
  NoDup (map fst table) ->
  forall k v v', In (k, v) table -> In (k, v') table -> v = v'.
Proof.
  induction table as [|[k0 v0] table IH]; simpl; intros Hnd k v v' H H'; [easy|].
  inversion Hnd as [|? ? Hk Hnd']; subst.
  destruct H as [H|H], H' as [H'|H'].
  - congruence.
  - exfalso. apply Hk. apply in_map_iff. exists (k, v').
    split; [simpl; congruence | exact H'].
  - exfalso. apply Hk. apply in_map_iff. exists (k, v).
    split; [simpl; congruence | exact H].
  - eapply IH; eauto.
Qed.

(** X11. [getFileType] answers a category exactly for the extensions
    listed under it: for an entry of the table, the extension is in the
    entry's list if and only if the answer is the entry's category. *)
Theorem getFileType_listed_iff (type : jsstring) (exts : list jsstring)
    (extension : jsstring) :
  In (type, exts) SUPPORTED_TYPES ->
  (In extension exts <-> getFileType extension = type).
Proof.
  intros Hin. unfold getFileType. split.
  - intros Hext. eapply lookupType_listed; eauto using SUPPORTED_TYPES_NoDup.
  - intros E.
    destruct (lookupType_found SUPPORTED_TYPES extension)
      as [Hu|[exts' [Hin' Hext]]].
    + exfalso. rewrite E in Hu.
      assert (In type (map fst SUPPORTED_TYPES)) as Hk
        by (apply in_map_iff; exists (type, exts); split;
            [reflexivity | exact Hin]).
      rewrite Hu in Hk. revert Hk. vm_compute. intuition discriminate.
    + rewrite E in Hin'.
      now rewrite (NoDup_keys_same_entry _ SUPPORTED_TYPES_keys_NoDup _ _ _ Hin Hin').
Qed.

Lemma getFileType_listed_iff_witness :
  In (js ".xlsx") (map js [".xls"; ".xlsx"; ".csv"; ".ods"]%string)
  <-> getFileType (js ".xlsx") = js "spreadsheet".
Proof.
  apply (getFileType_listed_iff (js "spreadsheet")
           (map js [".xls"; ".xlsx"; ".csv"; ".ods"]%string) (js ".xlsx")).
  simpl. right. right. left. reflexivity.
Defined.

Lemma lastIndexFrom_last_dot :
  forall base ext i,
    0 <= i -> ~ In 46%N ext ->
    lastIndexFrom [46%N] (base ++ 46%N :: ext) i = i + len base.
Proof.
  induction base as [|c base IH]; intros ext i Hi Hext.
  - simpl app. rewrite lastIndexFrom_cons, isPrefix_single.
    rewrite lastIndexFrom_absent by exact Hext. simpl. unfold len. simpl. lia.
  - simpl app. rewrite lastIndexFrom_cons.
    rewrite IH by (try lia; exact Hext).
    assert ((0 <=? i + 1 + len base) = true) as -> by (apply Z.leb_le; unfold len; lia).
    unfold len. simpl List.length. lia.
Qed.

Lemma toLowerCase_plain_length (s : jsstring) :
  Forall plainUnit s -> List.length (toLowerCase s) = List.length s.
Proof.
  induction 1 as [|c s Hc _ IH]; [reflexivity|].
  unfold toLowerCase in *. simpl. rewrite length_app, IH, Hc. reflexivity.
Qed.

Lemma substringFrom_skipn (s : jsstring) (k : nat) :
  (k <= List.length s)%nat -> substringFrom s (Z.of_nat k) = skipn k s.
Proof.
  intros Hk. unfold substringFrom, substring, clamp, len.
  replace (Z.to_nat (Z.min (Z.max (Z.of_nat k) 0) (Z.of_nat (List.length s))))
    with k by lia.
  replace (Z.to_nat (Z.min (Z.max (Z.of_nat (List.length s)) 0)
                       (Z.of_nat (List.length s)))) with (List.length s) by lia.
  rewrite Nat.min_l, Nat.max_r by lia.
  rewrite <- (length_skipn k s). apply firstn_all.
Qed.

(** X12. For a name [base.ext] made of code units up to U+017F, whose
    characters before the last dot each keep their length in lower case
    (every ASCII name does), the extension found is the dot followed by
    the lower-cased suffix, so the category is the one of the lower-cased
    extension. *)
Theorem getFileExtension_plain (base ext : jsstring) :
  Forall latin base -> Forall latin ext ->
  Forall plainUnit base -> ~ In 46%N ext ->
  getFileExtension (base ++ js "." ++ ext) = js "." ++ toLowerCase ext
  /\ getFileType (getFileExtension (base ++ js "." ++ ext))
     = getFileType (js "." ++ toLowerCase ext).
Proof.
  intros _ _ Hbase Hext.
  assert (getFileExtension (base ++ js "." ++ ext) = js "." ++ toLowerCase ext)
    as E; [|now rewrite E].
  unfold getFileExtension, lastIndexOf. change (js ".") with [46%N].
  simpl app. rewrite lastIndexFrom_last_dot by (try lia; exact Hext).
  unfold toLowerCase. rewrite flat_map_app. simpl flat_map.
  fold (toLowerCase base) (toLowerCase ext).
  change (0 + len base) with (len base). unfold len.
  rewrite <- (toLowerCase_plain_length base Hbase).
  rewrite substringFrom_skipn by (rewrite length_app; lia).
  rewrite skipn_app, skipn_all, Nat.sub_diag. reflexivity.
Qed.

Lemma getFileExtension_plain_witness :
  getFileExtension (js "Report" ++ js "." ++ js "PDF") = js "." ++ toLowerCase (js "PDF")
  /\ getFileType (getFileExtension (js "Report" ++ js "." ++ js "PDF"))
     = getFileType (js "." ++ toLowerCase (js "PDF")).
Proof.
  apply (getFileExtension_plain (js "Report") (js "PDF")).
  - repeat constructor; vm_compute; discriminate.
  - repeat constructor; vm_compute; discriminate.
  - repeat constructor.
  - vm_compute. intuition discriminate.
Defined.

(** X15. Every file the classifier calls ["code"] has a language: no
    extension of that category falls back to ["Unknown"]. *)
Theorem code_extensions_have_language (extension : jsstring) :
  getFileType extension = js "code" ->
  getLanguageFromExtension extension <> js "Unknown".
Proof.
  intros H. unfold getFileType in H.
  destruct (lookupType_found SUPPORTED_TYPES extension)
    as [Hu|[exts [Hin Hext]]]; [rewrite H in Hu; discriminate Hu|].
  rewrite H in Hin.
  assert (In (js "code",
              map js [".js"; ".ts"; ".jsx"; ".tsx"; ".py"; ".java"; ".cpp";
                      ".c"; ".html"; ".css"; ".json"; ".xml"; ".yaml";
                      ".yml"]%string) SUPPORTED_TYPES) as Hcode
    by (simpl; tauto).
  rewrite (NoDup_keys_same_entry _ SUPPORTED_TYPES_keys_NoDup _ _ _ Hin Hcode)
    in Hext.
  clear H Hin Hcode. revert extension Hext.
  apply (proj1 (Forall_forall
                  (fun extension => getLanguageFromExtension extension
                                    <> js "Unknown") _)).
  repeat constructor; vm_compute; discriminate.
Qed.

Lemma code_extensions_have_language_witness :
  getLanguageFromExtension (js ".tsx") <> js "Unknown".
Proof.
  apply (code_extensions_have_language (js ".tsx")).
  vm_compute. reflexivity.
Defined.

(** ** The dispatch *)

Lemma processFile_image_pending_witness :
  processFile undecodable scanPng = Pending.
Proof.
  apply (processFile_image_pending undecodable scanPng
           (js "data:image/png;base64,AAAA")).
  - vm_compute. reflexivity.
  - reflexivity.
  - reflexivity.
Defined.

Lemma isCase_eq (fileType : jsstring) (t : string) :
  isCase fileType t = true <-> fileType = js t.
Proof. apply str_eqb_eq. Qed.

(** X16. [processFile] never rejects; and for a file of any category
    other than image, document and spreadsheet (text, code, audio, video,
    archive, presentation and unknown files) it returns a [ProcessedFile],
    whatever the reader and the libraries do. *)
Theorem processFile_resolves_without_parsing (P : Platform) (file : File.t) :
  let fileType := getFileType (getFileExtension (File.name file)) in
  (forall e, processFile P file <> Rejected e)
  /\ (fileType <> js "image" ->
      fileType <> js "document" ->
      fileType <> js "spreadsheet" ->
      exists processedFile, processFile P file = Resolved processedFile).
Proof.
  cbv zeta. split.
  - intros e. unfold processFile.
    destruct (dispatch P _ file _) as [[text metadata]|e'|]; simpl; discriminate.
  - intros Himage Hdocument Hspreadsheet. unfold processFile.
    set (fileType := getFileType (getFileExtension (File.name file))) in *.
    unfold dispatch.
    repeat match goal with
           | |- context [if isCase fileType ?t then _ else _] =>
               let E := fresh "E" in
               destruct (isCase fileType t) eqn:E;
               [apply isCase_eq in E|]
           end;
      try contradiction;
      unfold processCodeFile, processGenericFile, processTextFile;
      try (destruct (readAsText P file)); simpl; eauto.
Qed.

Lemma processFile_resolves_without_parsing_witness :
  exists processedFile, processFile unreadable songMp3 = Resolved processedFile.
Proof.
  apply (proj2 (processFile_resolves_without_parsing unreadable songMp3));
    vm_compute; discriminate.
Defined.

(** A CSV file whose read fails leaves [processFile] waiting: the
    reader's [error] event has no handler. *)
Theorem processFile_csv_pending (P : Platform) (file : File.t) :
  getFileExtension (File.name file) = js ".csv" ->
  readAsText P file = ReaderError ->
  processFile P file = Pending.
Proof.
  intros Hext Hread. unfold processFile. rewrite Hext.
  change (getFileType (js ".csv")) with (js "spreadsheet").
  unfold dispatch. simpl isCase. cbv iota.
  unfold processSpreadsheetFile, processCSVFile. rewrite Hext, Hread.
  reflexivity.
Qed.

Lemma processFile_csv_pending_witness :
  processFile unreadable dataCsv = Pending.
Proof.
  apply (processFile_csv_pending unreadable dataCsv); reflexivity.
Defined.

(** X18. What [processFile] returns keeps the file's name and size, has
    the classifier's category as type, the same text as [content] and as
    [extractedText], and metadata recording the name, size, modification
    time and declared type of the file. *)
Theorem processFile_fields (P : Platform) (file : File.t)
    (processedFile : ProcessedFile.t) :
  processFile P file = Resolved processedFile ->
  ProcessedFile.name processedFile = File.name file
  /\ ProcessedFile.size processedFile = File.size file
  /\ ProcessedFile.type processedFile
     = getFileType (getFileExtension (File.name file))
  /\ ProcessedFile.extractedText processedFile
     = Some (ProcessedFile.content processedFile)
  /\ exists metadata,
       ProcessedFile.metadata processedFile = Some metadata
       /\ Metadata.originalName metadata = File.name file
       /\ Metadata.size metadata = File.size file
       /\ Metadata.lastModified metadata = File.lastModified file
       /\ Metadata.type metadata = File.type file.
Proof.
  unfold processFile.
  set (fileType := getFileType (getFileExtension (File.name file))).
  set (metadata0 := Metadata.mk _ _ _ _ None None).
  assert (forall text metadata,
             dispatch P fileType file metadata0 = Resolved (text, metadata) ->
             Metadata.originalName metadata = File.name file
             /\ Metadata.size metadata = File.size file
             /\ Metadata.lastModified metadata = File.lastModified file
             /\ Metadata.type metadata = File.type file) as Hm.
  { unfold dispatch. intros text metadata.
    repeat match goal with
           | |- context [if ?b then _ else _] => destruct b
           end;
    repeat match goal with
           | |- context [await ?p _] => destruct p as [?|?|]; simpl
           end;
    try discriminate;
    try (intros [= <- <-]; repeat split);
    try (destruct a as [[? ?] ?]; intros [= <- <-]; repeat split). }
  destruct (dispatch P fileType file metadata0) as [[text metadata]|e|] eqn:E;
    simpl; intros [= <-]; simpl.
  - repeat split. exists metadata. split; [reflexivity | now apply (Hm text)].
  - repeat split. exists metadata0. repeat split.
Qed.

Lemma processFile_fields_witness :
  exists processedFile,
    processFile undecodable songMp3 = Resolved processedFile
    /\ ProcessedFile.name processedFile = File.name songMp3
    /\ ProcessedFile.type processedFile = js "audio".
Proof.
  eexists. split; [vm_compute; reflexivity|].
  split;
    [apply (processFile_fields undecodable songMp3 _ eq_refl)
    |apply (processFile_fields undecodable songMp3 _ eq_refl)].
Defined.

(** X19. A text file comes back verbatim, and when it cannot be read the
    content says so; a code file that cannot be read gets the same
    message, while a file of unknown type that cannot be read is reported
    as binary instead. *)
Theorem processFile_read_outcomes (P : Platform) (file : File.t) :
  let fileType := getFileType (getFileExtension (File.name file)) in
  let failed := js "Error processing file: Failed to read text file" in
  let content text :=
    exists processedFile,
      processFile P file = Resolved processedFile
      /\ ProcessedFile.content processedFile = text in
  (fileType = js "text" ->
   content match readAsText P file with
           | ReaderLoad text => text
           | ReaderError => failed
           end)
  /\ (fileType = js "code" -> readAsText P file = ReaderError -> content failed)
  /\ (fileType = js "unknown" -> readAsText P file = ReaderError ->
      content (binaryReport P file)).
Proof.
  intros fileType failed content. unfold content, processFile. fold fileType.
  repeat split.
  - intros ->. unfold dispatch. simpl isCase. cbv iota.
    unfold processTextFile.
    destruct (readAsText P file); simpl; eexists; split; reflexivity.
  - intros -> Hr. unfold dispatch. simpl isCase. cbv iota.
    unfold processCodeFile, processTextFile. rewrite Hr. simpl.
    eexists; split; reflexivity.
  - intros -> Hr. unfold dispatch. simpl isCase. cbv iota.
    unfold processGenericFile, processTextFile. rewrite Hr. simpl.
    eexists; split; reflexivity.
Qed.

Lemma processFile_read_outcomes_witness :
  exists processedFile,
    processFile unreadable mainTs = Resolved processedFile
    /\ ProcessedFile.content processedFile
       = js "Error processing file: Failed to read text file".
Proof.
  apply (proj1 (proj2 (processFile_read_outcomes unreadable mainTs)));
    vm_compute; reflexivity.
Defined.

(** X20. Of the four document extensions, [.doc] and [.odt] never reach
    a parser: their content is a fixed message on every platform.  For
    [.pdf], [.docx], [.xls] and [.xlsx] a rejection of the parser is
    turned into the extractor's own report of that error. *)
Theorem processFile_documents (P : Platform) (file : File.t) (e : jsError) :
  let extension := getFileExtension (File.name file) in
  let content text :=
    exists processedFile,
      processFile P file = Resolved processedFile
      /\ ProcessedFile.content processedFile = text in
  (extension = js ".doc" ->
   content (js "Legacy .doc files are not supported. Please convert to .docx format."))
  /\ (extension = js ".odt" ->
      content (js "Document content extraction not yet implemented for .odt files."))
  /\ (extension = js ".pdf" -> pdfText P file = Rejected e ->
      content (extractionErrorReport P "PDF File" file e))
  /\ (extension = js ".docx" -> wordText P file = Rejected e ->
      content (extractionErrorReport P "Word Document" file e))
  /\ ((extension = js ".xls" \/ extension = js ".xlsx") ->
      excelText P file = Rejected e ->
      content (extractionErrorReport P "Excel File" file e)).
Proof.
  intros extension content. unfold content, processFile. fold extension.
  repeat split.
  - intros E. rewrite E.
    change (getFileType (js ".doc")) with (js "document").
    unfold dispatch, processDocumentFile. simpl isCase. cbv iota.
    fold extension. rewrite E. eexists; split; reflexivity.
  - intros E. rewrite E.
    change (getFileType (js ".odt")) with (js "document").
    unfold dispatch, processDocumentFile. simpl isCase. cbv iota.
    fold extension. rewrite E. eexists; split; reflexivity.
  - intros E Hr. rewrite E.
    change (getFileType (js ".pdf")) with (js "document").
    unfold dispatch, processDocumentFile, extractPDFText. simpl isCase. cbv iota.
    fold extension. rewrite E, Hr. eexists; split; reflexivity.
  - intros E Hr. rewrite E.
    change (getFileType (js ".docx")) with (js "document").
    unfold dispatch, processDocumentFile, extractWordText. simpl isCase. cbv iota.
    fold extension. rewrite E, Hr. eexists; split; reflexivity.
  - intros [E|E] Hr; rewrite E.
    + change (getFileType (js ".xls")) with (js "spreadsheet").
      unfold dispatch, processSpreadsheetFile, processExcelFile.
      simpl isCase. cbv iota. fold extension. rewrite E, Hr.
      eexists; split; reflexivity.
    + change (getFileType (js ".xlsx")) with (js "spreadsheet").
      unfold dispatch, processSpreadsheetFile, processExcelFile.
      simpl isCase. cbv iota. fold extension. rewrite E, Hr.
      eexists; split; reflexivity.
Qed.

Lemma processFile_documents_witness :
  exists processedFile,
    processFile undecodable reportDoc = Resolved processedFile
    /\ ProcessedFile.content processedFile
       = js "Legacy .doc files are not supported. Please convert to .docx format.".
Proof.
  apply (proj1 (processFile_documents undecodable reportDoc OtherValue)).
  vm_compute. reflexivity.
Defined.

(** ** The speech service's heuristics *)

Lemma sublist_filter {A : Type} (f : A -> bool) (l : list A) :
  sublist (filter f l) l.
Proof.
  induction l as [|x l IH]; simpl; [constructor|].
  destruct (f x); constructor; exact IH.
Qed.

Lemma sublist_nil_l {A : Type} (l : list A) : sublist [] l.
Proof. induction l; constructor; assumption. Qed.

Lemma sublist_firstn {A : Type} (n : nat) (l : list A) : sublist (firstn n l) l.
Proof.
  revert n. induction l as [|x l IH]; intros [|n]; simpl.
  - constructor.
  - constructor.
  - apply sublist_nil_l.
  - apply sublist_keep, IH.
Qed.

Lemma sublist_trans {A : Type} (l1 l2 l3 : list A) :
  sublist l1 l2 -> sublist l2 l3 -> sublist l1 l3.
Proof.
  intros H12 H23. revert l1 H12.
  induction H23 as [|x l2 l3 _ IH|x l2 l3 _ IH]; intros l1 H12.
  - exact H12.
  - constructor. now apply IH.
  - inversion H12; subst; constructor; now apply IH.
Qed.

(** X23. [extractTopics] returns between one and three topics: either the
    lone placeholder, or topics of the fixed list, in the list's order
    and without repetition, each of which occurs in the lower-cased
    transcription. *)
Theorem extractTopics_wellformed (transcription : jsstring) :
  let topics := extractTopics transcription in
  (1 <= List.length topics <= 3)%nat
  /\ (topics = [js "General discussion"]
      \/ (sublist topics commonTopics
          /\ NoDup topics
          /\ Forall (fun topic => includes (toLowerCase transcription) topic = true)
               topics)).
Proof.
  unfold extractTopics.
  set (found := filter _ commonTopics).
  destruct (0 <? List.length found)%nat eqn:E; cbv zeta.
  - apply Nat.ltb_lt in E. split.
    + rewrite length_firstn. lia.
    + right.
      assert (sublist (firstn 3 found) commonTopics) as Hsub
        by (eapply sublist_trans; [apply sublist_firstn | apply sublist_filter]).
      repeat split; [exact Hsub | |].
      * eapply sublist_NoDup; [exact Hsub|].
        apply distinct_NoDup. vm_compute. reflexivity.
      * apply Forall_forall. intros topic Hin.
        apply (sublist_In _ _ _ (sublist_firstn 3 found)) in Hin.
        now apply filter_In in Hin.
  - split; [simpl; lia | now left].
Qed.

Lemma splitLoop_cons (fuel : nat) (re : regex) (prev : option N) (c : N)
    (rest cur : jsstring) (fresh : bool) :
  splitLoop (S fuel) re prev (c :: rest) cur fresh
  = match matchHere re prev (c :: rest) with
    | Some n =>
        if (n =? 0)%nat && fresh
        then splitLoop fuel re (Some c) rest (c :: cur) false
        else rev cur ::
             splitLoop fuel re (prevAt prev (c :: rest) n) (skipn n (c :: rest))
               [] true
    | None => splitLoop fuel re (Some c) rest (c :: cur) false
    end.
Proof. reflexivity. Qed.

Lemma splitLoop_plus_pieces (cls : N -> bool) :
  forall fuel prev rest cur fresh,
    Forall (fun c => cls c = false) cur ->
    Forall (Forall (fun c => cls c = false))
      (splitLoop fuel [plus cls] prev rest cur fresh).
Proof.
  induction fuel as [|fuel IH]; intros prev rest cur fresh Hcur.
  - simpl. repeat constructor. now apply Forall_rev.
  - destruct rest as [|c rest'];
      [simpl; repeat constructor; now apply Forall_rev|].
    rewrite splitLoop_cons.
    pose proof (matchHere_plus cls prev (c :: rest')) as Hm. cbv beta iota in Hm.
    destruct (cls c) eqn:Ec.
    + destruct Hm as [k [-> _]]. simpl andb. cbv iota.
      constructor; [now apply Forall_rev | apply IH; constructor].
    + rewrite Hm. apply IH. constructor; assumption.
Qed.

Lemma split_plus_pieces (cls : N -> bool) (s : jsstring) :
  Forall (Forall (fun c => cls c = false)) (split [plus cls] s).
Proof.
  unfold split. destruct s as [|c s]; [repeat constructor|].
  apply splitLoop_plus_pieces. constructor.
Qed.

(** X24. [extractKeyPoints] returns between one and five key points:
    either the lone placeholder, or sentences longer than 10 characters,
    without white space at either end and free of the characters [.], [!]
    and [?]. *)
Theorem extractKeyPoints_wellformed (transcription : jsstring) :
  let keyPoints := extractKeyPoints transcription in
  (1 <= List.length keyPoints <= 5)%nat
  /\ (keyPoints = [js "Content analyzed for key insights"]
      \/ Forall (fun point =>
                   10 < len point /\ trimmed point
                   /\ Forall (fun c => oneOf ".!?" c = false) point) keyPoints).
Proof.
  unfold extractKeyPoints.
  set (sentences := filter _ (split sentenceEndRe transcription)).
  destruct (0 <? List.length (map trim (firstn 5 sentences)))%nat eqn:E; cbv zeta.
  - apply Nat.ltb_lt in E. split.
    + rewrite length_map, length_firstn in *. lia.
    + right. apply Forall_forall. intros point Hin.
      apply in_map_iff in Hin as [s [<- Hin]].
      apply (sublist_In _ _ _ (sublist_firstn 5 sentences)) in Hin.
      apply filter_In in Hin as [Hin Hlong].
      repeat split; [now apply Z.ltb_lt | apply trim_idempotent |].
      pose proof (split_plus_pieces (oneOf ".!?") transcription) as Hp.
      rewrite Forall_forall in Hp. specialize (Hp s Hin).
      rewrite Forall_forall in Hp |- *. intros c Hc. apply Hp.
      now apply trim_In.
  - split; [simpl; lia | now left].
Qed.

Lemma split_char_length (sep : N) (s : jsstring) :
  List.length (split_char sep s) = S (count_occ N.eq_dec s sep).
Proof.
  induction s as [|c s IH]; [reflexivity|].
  simpl. destruct (N.eqb_spec c sep) as [->|Hne].
  - destruct (N.eq_dec sep sep); [|congruence]. simpl. now rewrite IH.
  - destruct (N.eq_dec c sep); [congruence|].
    destruct (split_char sep s); simpl in *; congruence.
Qed.

(** X25. The word count of a transcription is the number of its spaces
    plus one: it is 1 for the empty transcription, and every space
    counts, also one that follows another. *)
Theorem wordCount_spaces (transcription : jsstring) :
  wordCount transcription = S (count_occ N.eq_dec transcription 32%N)
  /\ (1 <= wordCount transcription)%nat
  /\ wordCount [] = 1%nat.
Proof.
  unfold wordCount. rewrite split_char_length. repeat split. lia.
Qed.

Lemma detectLoop_best (textLower : jsstring) :
  forall entries bestMatch bestScore,
    (detectLoop entries textLower bestMatch bestScore = bestMatch
     /\ forall lang words, In (lang, words) entries ->
                           (score textLower words <= bestScore)%nat)
    \/ (exists words,
           In (detectLoop entries textLower bestMatch bestScore, words) entries
           /\ (bestScore < score textLower words)%nat
           /\ forall lang' words', In (lang', words') entries ->
                                   (score textLower words' <= score textLower words)%nat).
Proof.
  induction entries as [|[lang words] rest IH]; intros bestMatch bestScore.
  - left. split; [reflexivity | easy].
  - simpl detectLoop.
    destruct (bestScore <? score textLower words)%nat eqn:E.
    + apply Nat.ltb_lt in E. right.
      destruct (IH lang (score textLower words))
        as [[-> Hall]|[words' (Hin & Hlt & Hall)]].
      * exists words. repeat split; [now left | exact E |].
        intros l w [[= <- <-]|Hw]; [lia | eauto].
      * exists words'. repeat split; [now right | lia |].
        intros l w [[= <- <-]|Hw]; [lia | eauto].
    + apply Nat.ltb_ge in E.
      destruct (IH bestMatch bestScore)
        as [[-> Hall]|[words' (Hin & Hlt & Hall)]].
      * left. split; [reflexivity|].
        intros l w [[= <- <-]|Hw]; [lia | eauto].
      * right. exists words'. repeat split; [now right | exact Hlt |].
        intros l w [[= <- <-]|Hw]; [lia | eauto].
Qed.

(** X26. [detectLanguage] answers one of the four languages of its
    table, and one that scores highest: no language of the table has
    more of its words in the lower-cased text than the one returned. *)
Theorem detectLanguage_best (text : jsstring) :
  exists words,
    In (detectLanguage text, words) languages
    /\ forall lang' words',
         In (lang', words') languages ->
         (score (toLowerCase text) words' <= score (toLowerCase text) words)%nat.
Proof.
  unfold detectLanguage.
  destruct (detectLoop_best (toLowerCase text) languages (js "en") 0)
    as [[-> Hall]|[words (Hin & _ & Hall)]].
  - eexists. split; [left; reflexivity|].
    intros l w Hw. specialize (Hall l w Hw). lia.
  - exists words. split; assumption.
Qed.

(** ** The upload handler *)

Section UploadProperties.

Variable P : Platform.
Variable jsonRow : jsstring -> option (option jsstring * jsstring).
Variable worlds : nat -> World.

Lemma uploadLoop_resolved :
  forall files k processedNotes notes,
    uploadLoop P jsonRow worlds files k processedNotes = Resolved notes <->
    exists more,
      gathered P jsonRow worlds k files more /\ notes = processedNotes ++ more.
Proof.
  induction files as [|file rest IH]; intros k processedNotes notes.
  - simpl. split.
    + intros [= <-]. exists []. split; [constructor | now rewrite app_nil_r].
    + intros [more [Hg ->]]. inversion Hg; subst. now rewrite app_nil_r.
  - simpl. split.
    + destruct (processFile P file) as [processedFile|e|] eqn:Ep; simpl;
        try discriminate.
      destruct (createNotesFromProcessedFile jsonRow (worlds k) processedFile
                  (js "Uploads")) as [extracted|[]] eqn:Ec; try discriminate.
      intros H. apply IH in H as [more [Hg ->]].
      exists (extracted ++ more). split; [|now rewrite app_assoc].
      econstructor; eauto.
    + intros [more [Hg ->]].
      inversion Hg as [|? ? ? processedFile extracted more' Hp Hc Hg']; subst.
      rewrite Hp. simpl. rewrite Hc. apply IH.
      exists more'. split; [exact Hg' | now rewrite app_assoc].
Qed.

Lemma uploadLoop_pending :
  forall files k processedNotes,
    uploadLoop P jsonRow worlds files k processedNotes = Pending ->
    exists file, In file files /\ processFile P file = Pending.
Proof.
  induction files as [|file rest IH]; intros k processedNotes; simpl;
    [discriminate|].
  destruct (processFile P file) as [processedFile|e|] eqn:Ep; simpl;
    try discriminate.
  - destruct (createNotesFromProcessedFile jsonRow (worlds k) processedFile
                (js "Uploads")) as [extracted|[]]; try discriminate.
    intros H. apply IH in H as [f [Hin Hf]]. exists f. split; [now right | exact Hf].
  - intros _. exists file. split; [now left | exact Ep].
Qed.

(** X22. An upload is all or nothing: [saveNotes] is called with a list
    of notes exactly when every file of the batch was processed and
    segmented without incident and the notes gathered, in the order of
    the files, are not empty; one file that throws or never settles
    leaves nothing saved, the notes of the files before it included.  And
    the processing flag stays up only when a file's [processFile] or
    [saveNotes] never settles. *)
Theorem handleFileUpload_all_or_nothing
    (saveNotes : list Note.t -> promise unit) (files : list File.t)
    (notes : list Note.t) :
  (saveNotesCalledWith (handleFileUpload P jsonRow worlds saveNotes files)
   = Some notes
   <-> gathered P jsonRow worlds 0 files notes /\ notes <> [])
  /\ (isProcessingFiles (handleFileUpload P jsonRow worlds saveNotes files) = true ->
      (exists file, In file files /\ processFile P file = Pending)
      \/ exists saved, saveNotes saved = Pending).
Proof.
  unfold handleFileUpload. split.
  - destruct (uploadLoop P jsonRow worlds files 0 []) as [gatheredNotes|e|] eqn:E.
    + apply uploadLoop_resolved in E as [more [Hg E]]. simpl in E. subst more.
      destruct (0 <? List.length gatheredNotes)%nat eqn:El.
      * apply Nat.ltb_lt in El.
        assert (saveNotesCalledWith
                  match saveNotes gatheredNotes with
                  | Pending => {| saveNotesCalledWith := Some gatheredNotes;
                                  isProcessingFiles := true |}
                  | _ => {| saveNotesCalledWith := Some gatheredNotes;
                            isProcessingFiles := false |}
                  end = Some gatheredNotes) as ->
          by (destruct (saveNotes gatheredNotes); reflexivity).
        split.
        -- intros [= <-]. split; [exact Hg|].
           intros ->. simpl in El. lia.
        -- intros [Hg' _]. f_equal.
           assert (Resolved gatheredNotes = Resolved notes) as [= ->];
             [|reflexivity].
           rewrite <- (proj2 (uploadLoop_resolved files 0 [] gatheredNotes)
                         (ex_intro _ gatheredNotes (conj Hg eq_refl))).
           apply uploadLoop_resolved. now exists notes.
      * apply Nat.ltb_ge in El. simpl. split; [discriminate|].
        intros [Hg' Hne].
        assert (Resolved gatheredNotes = Resolved notes) as [= ->].
        { rewrite <- (proj2 (uploadLoop_resolved files 0 [] gatheredNotes)
                        (ex_intro _ gatheredNotes (conj Hg eq_refl))).
          apply uploadLoop_resolved. now exists notes. }
        destruct notes; [congruence | simpl in El; lia].
    + simpl. split; [discriminate|]. intros [Hg _].
      assert (uploadLoop P jsonRow worlds files 0 [] = Resolved notes) as E'
        by (apply uploadLoop_resolved; now exists notes).
      congruence.
    + simpl. split; [discriminate|]. intros [Hg _].
      assert (uploadLoop P jsonRow worlds files 0 [] = Resolved notes) as E'
        by (apply uploadLoop_resolved; now exists notes).
      congruence.
  - destruct (uploadLoop P jsonRow worlds files 0 []) as [gatheredNotes|e|] eqn:E.
    + destruct (0 <? List.length gatheredNotes)%nat; [|discriminate].
      destruct (saveNotes gatheredNotes) eqn:Es; try discriminate.
      intros _. right. now exists gatheredNotes.
    + discriminate.
    + intros _. left. eapply uploadLoop_pending; eauto.
Qed.

End UploadProperties.

Lemma handleFileUpload_all_or_nothing_witness :
  exists notes,
    saveNotesCalledWith
      (handleFileUpload (readsAs scenarioA) noJson (fun _ => frozenWorld)
         (fun _ => Resolved tt) [notesMd]) = Some notes
    /\ notes <> [].
Proof.
  assert (exists processedFile note notes,
             processFile (readsAs scenarioA) notesMd = Resolved processedFile
             /\ createNotesFromProcessedFile noJson frozenWorld processedFile
                  (js "Uploads") = Ok (note :: notes))
    as (processedFile & note & notes & Hp & Hc)
    by (do 3 eexists; split; vm_compute; reflexivity).
  exists ((note :: notes) ++ []). split; [|discriminate].
  apply (proj2 (proj1 (handleFileUpload_all_or_nothing (readsAs scenarioA) noJson
                         (fun _ => frozenWorld) (fun _ => Resolved tt) [notesMd]
                         ((note :: notes) ++ [])))).
  split; [|discriminate].
  econstructor; [exact Hp | exact Hc | constructor].
Defined.

(** ** Rows *)

Lemma rowNotes_nth (jsonRow : jsstring -> option (option jsstring * jsstring)) :
  forall rows index k row,
    nth_error rows k = Some row ->
    exists u,
      nth_error (rowNotes jsonRow rows index) k = Some u
      /\ (jsonRow (replaceFirst rowPrefixRe row []) = None ->
          u = Seg.mk (js "Row " ++ ofNat (index + k + 1))
                (replaceFirst rowPrefixRe row []))
      /\ (jsonRow (replaceFirst rowPrefixRe row []) <> None ->
          len (Seg.title u) <= 50).
Proof.
  induction rows as [|r rows IH]; intros index [|k] row H; simpl in H;
    try discriminate.
  - injection H as ->. simpl. eexists. split; [reflexivity|].
    rewrite Nat.add_0_r.
    destruct (jsonRow (replaceFirst rowPrefixRe row [])) as [[first lines]|].
    + split; [discriminate|]. intros _. simpl.
      apply substring_0_length. lia.
    + split; [reflexivity | congruence].
  - destruct (IH (S index) k row H) as [u (Hu & Hnone & Hsome)].
    exists u. simpl. split; [exact Hu|].
    replace (index + S k + 1)%nat with (S index + k + 1)%nat by lia.
    split; assumption.
Qed.

Lemma rowNotes_length (jsonRow : jsstring -> option (option jsstring * jsstring)) :
  forall rows index, List.length (rowNotes jsonRow rows index) = List.length rows.
Proof. induction rows; simpl; intros; [reflexivity | now rewrite IHrows]. Qed.

(** X5. Under the row strategy there is one unit per row found, in
    order, whether or not the row's payload parses: a payload that does
    not parse gives the unit ["Row k"] with the payload as it stands, and
    one that parses gives a title of at most 50 characters. *)
Theorem row_strategy_units
    (jsonRow : jsstring -> option (option jsstring * jsstring))
    (content fileName : jsstring) :
  rowed content = true ->
  exists notes,
    extractNotesFromContent jsonRow content fileName = Ok notes
    /\ List.length notes = List.length (matchAll rowRe content)
    /\ forall k row,
         nth_error (matchAll rowRe content) k = Some row ->
         exists u,
           nth_error notes k = Some u
           /\ (jsonRow (replaceFirst rowPrefixRe row []) = None ->
               u = Seg.mk (js "Row " ++ ofNat (k + 1))
                     (replaceFirst rowPrefixRe row []))
           /\ (jsonRow (replaceFirst rowPrefixRe row []) <> None ->
               len (Seg.title u) <= 50).
Proof.
  unfold rowed, structural. intros H.
  apply andb_prop in H as [H Hrows]. apply andb_prop in H as [Hs Hmark].
  apply negb_true_iff in Hs.
  repeat (apply orb_false_iff in Hs as [Hs ?]).
  unfold extractNotesFromContent.
  repeat match goal with
         | E : ?b = false |- context [if ?b then _ else _] => rewrite E
         end.
  rewrite Hmark, Hrows. simpl andb. cbv iota.
  eexists. split; [reflexivity|]. split; [apply rowNotes_length|].
  intros k row Hk. apply (rowNotes_nth jsonRow _ 0 k row Hk).
Qed.

Lemma row_strategy_units_witness :
  exists notes,
    extractNotesFromContent noJson rowsText (js "data.csv") = Ok notes
    /\ List.length notes = 2%nat.
Proof.
  destruct (row_strategy_units noJson rowsText (js "data.csv"))
    as [notes (Hn & Hlen & _)].
  - vm_compute. reflexivity.
  - exists notes. split; [exact Hn|]. rewrite Hlen. vm_compute. reflexivity.
Defined.

(** ** From the file to its notes *)

(** X21. The notes of an audio file all carry the duration estimated for
    the file, its whole transcription and the type ["audio"], and no
    thumbnail; the notes of a text file carry neither transcription nor
    duration. *)
Theorem media_notes_carry_metadata
    (P : Platform) (jsonRow : jsstring -> option (option jsstring * jsstring))
    (world : World) (file : File.t) (category : jsstring)
    (processedFile : ProcessedFile.t) (notes : list Note.t) :
  processFile P file = Resolved processedFile ->
  createNotesFromProcessedFile jsonRow world processedFile category = Ok notes ->
  let fileType := getFileType (getFileExtension (File.name file)) in
  (fileType = js "audio" ->
   Forall (fun note =>
             Note.duration note = Some (File.size file / 16000)
             /\ Note.transcription note = Some (ProcessedFile.content processedFile)
             /\ Note.type note = TypeName (js "audio")
             /\ Note.fileUrl note = None) notes)
  /\ (fileType = js "text" ->
      Forall (fun note =>
                Note.duration note = None /\ Note.transcription note = None
                /\ Note.type note = TypeName (js "text")) notes).
Proof.
  intros Hp Hc fileType.
  assert (forall note, In note notes ->
            Note.type note = mapFileTypeToNoteType (ProcessedFile.type processedFile)
            /\ Note.transcription note
               = (if str_eqb (ProcessedFile.type processedFile) (js "audio")
                     || str_eqb (ProcessedFile.type processedFile) (js "video")
                  then ProcessedFile.extractedText processedFile else None)
            /\ Note.duration note
               = match ProcessedFile.metadata processedFile with
                 | Some m => Metadata.duration m
                 | None => None
                 end
            /\ Note.fileUrl note
               = match ProcessedFile.metadata processedFile with
                 | Some m => truthy (Metadata.thumbnail m)
                 | None => None
                 end) as Hnote.
  { unfold createNotesFromProcessedFile in Hc.
    destruct (extractNotesFromContent _ _ _) as [units|];
      cbv beta iota delta [bind] in Hc; [|discriminate].
    destruct units as [|u units'] eqn:Eu; cbv beta iota in Hc.
    - injection Hc as <-. easy.
    - rewrite <- Eu in Hc. injection Hc as <-.
      intros note Hin. apply mapi_In in Hin as [k [x [_ ->]]].
      repeat split. }
  unfold processFile in Hp. fold fileType in Hp.
  split; intros Ht; rewrite Ht in Hp; apply Forall_forall; intros note Hin;
    destruct (Hnote note Hin) as (Hty & Htr & Hdu & Hfu);
    rewrite Hty, Htr, Hdu, ?Hfu; clear Hnote Hty Htr Hdu Hfu;
    revert Hp; unfold dispatch; simpl isCase; cbv iota.
  - unfold processAudioFile. simpl. intros [= <-]. simpl. repeat split.
  - unfold processTextFile.
    destruct (readAsText P file); simpl; intros [= <-]; simpl; repeat split.
Qed.

Lemma media_notes_carry_metadata_witness :
  exists processedFile notes,
    processFile undecodable songMp3 = Resolved processedFile
    /\ createNotesFromProcessedFile noJson frozenWorld processedFile (js "Uploads")
       = Ok notes
    /\ Forall (fun note =>
                 Note.duration note = Some (File.size songMp3 / 16000)
                 /\ Note.transcription note
                    = Some (ProcessedFile.content processedFile)
                 /\ Note.type note = TypeName (js "audio")
                 /\ Note.fileUrl note = None) notes.
Proof.
  do 2 eexists. split; [vm_compute; reflexivity|].
  split; [vm_compute; reflexivity|].
  apply (proj1 (media_notes_carry_metadata undecodable noJson frozenWorld songMp3
                  (js "Uploads") _ _ eq_refl eq_refl)).
  vm_compute. reflexivity.
Defined.

Lemma baseName_strips_extension_witness :
  baseName (js "annual report" ++ js "." ++ js "pdf") = js "annual report".
Proof.
  apply (baseName_strips_extension (js "annual report") (js "pdf")).
  - discriminate.
  - repeat constructor.
Defined.
